(** * The metric comparison engine of the equity-research copilot

    A shallow embedding of the pure computations of the web client:
    - [apps/web/src/pages/Compare.tsx]: [pctDelta], [fmt], the metric
      catalog [TABLE_KEYS], the lookup [valAt], the comparison [rows] and
      the narrative [bullets];
    - [apps/web/src/pages/Ticker.tsx]: the derived margins [gmRatio],
      [opMargin] and [netMargin].

    A JavaScript [number] is an IEEE-754 binary64 value, which is what
    Rocq's primitive [float] is: arithmetic, comparisons, NaN, the two
    zeros and the infinities are those of the running program.  An
    optional value ([T | undefined]) is an [option]. *)

From Stdlib Require Import ZArith List String Ascii Bool Floats Lia Permutation.
From Stdlib Require Import DecimalString.
Import ListNotations.

Set Warnings "-inexact-float".

Local Open Scope list_scope.
Local Open Scope string_scope.

(* ================================================================= *)
(** ** The fragment of the JavaScript runtime the pages rely on *)

Module JS.

Definition number := float.

(** [ToBoolean] of a number: false at [+0], [-0] and [NaN]. *)
Definition truthy_number (x : number) : bool :=
  negb (x =? 0)%float && negb (is_nan x).

(** [ToBoolean] of a string: false at the empty string. *)
Definition truthy_string (s : string) : bool :=
  negb (s =? "").

(** [ToBoolean] of an optional value. *)
Definition truthy_opt {A} (t : A -> bool) (x : option A) : bool :=
  match x with
  | Some a => t a
  | None => false
  end.

(** [x != null]. *)
Definition notNull {A} (x : option A) : bool :=
  match x with
  | Some _ => true
  | None => false
  end.

(** [x >= 0]; false when [x] is [NaN]. *)
Definition ge0 (x : number) : bool := (0 <=? x)%float.

(** [Math.abs]. *)
Definition Math_abs (x : number) : number := abs x.

(** [Array.prototype.push] on an immutable list. *)
Definition push {A} (out : list A) (x : A) : list A := (out ++ [x])%list.

(** *** Decimal rendering of exact values *)

(** The decimal digits of a natural number, ["0"] for zero. *)
Definition decimal (n : Z) : string :=
  NilZero.string_of_uint (N.to_uint (Z.to_N n)).

Fixpoint zeros (n : nat) : string :=
  match n with
  | O => ""
  | S n' => String "0" (zeros n')
  end.

(** The integer [n] for which [n / 10^f - x] is closest to zero, the
    larger one on a tie; [x] is finite and not negative, and is read
    through its exact value [m * 2^e]. *)
Definition scaledNearest (x : number) (f : nat) : Z :=
  match Prim2SF x with
  | S754_finite _ m e =>
      let num := (Z.pos m * 10 ^ Z.of_nat f)%Z in
      if (0 <=? e)%Z then (num * 2 ^ e)%Z
      else ((2 * num + 2 ^ (- e)) / (2 * 2 ^ (- e)))%Z
  | _ => 0%Z
  end.

(** The digits of [n] with a point before the last [f] of them, padded
    with zeros on the left so that one digit precedes the point
    (steps 10.b-10.c of [Number.prototype.toFixed]). *)
Definition fixedString (n : Z) (f : nat) : string :=
  let m := decimal n in
  if Nat.eqb f 0 then m
  else
    let k := String.length m in
    let m := if Nat.leb k f then zeros (f + 1 - k) ++ m else m in
    let k := String.length m in
    substring 0 (k - f) m ++ "." ++ substring (k - f) f m.

Section Host.

(** [Number::toString] of the host, which [toFixed] falls back to for
    a finite magnitude of 10^21 or more. *)
Variable Number_toString : number -> string.

(** [Number.prototype.toFixed(fractionDigits)] (ECMA-262, 21.1.3.3). *)
Definition toFixed (x : number) (fractionDigits : nat) : string :=
  if is_nan x then "NaN"
  else if (x =? infinity)%float then "Infinity"
  else if (x =? neg_infinity)%float then "-Infinity"
  else
    let s := if (x <? 0)%float then "-" else "" in
    let x := if (x <? 0)%float then (- x)%float else x in
    if (1e21 <=? x)%float then s ++ Number_toString x
    else s ++ fixedString (scaledNearest x fractionDigits) fractionDigits.

End Host.

(** *** [Number.prototype.toLocaleString] *)

(** What the formatter takes from the host's default locale; digits are
    the Latin ones and the integer part is grouped in threes. *)
Record Locale := {
  decimalSep : string;
  groupSep : string
}.

Definition en_US : Locale := {| decimalSep := "."; groupSep := "," |}.

(** Digits grouped in threes from the right. *)
Fixpoint groupFrom (sep : string) (fuel : nat) (s : string) : string :=
  match fuel with
  | O => s
  | S fuel' =>
      let k := String.length s in
      if Nat.leb k 3 then s
      else groupFrom sep fuel' (substring 0 (k - 3) s) ++ sep ++ substring (k - 3) 3 s
  end.

Definition grouped (sep : string) (s : string) : string :=
  groupFrom sep (String.length s) s.

(** A digit string without its trailing zeros. *)
Fixpoint stripZeros (s : string) : string :=
  match s with
  | "" => ""
  | String c s' =>
      let t := stripZeros s' in
      if (t =? "") && Ascii.eqb c "0" then "" else String c t
  end.

(** [a / b >= 10^k], for positive [a] and [b]. *)
Definition atLeastPow10 (a b k : Z) : bool :=
  if (0 <=? k)%Z then (b * 10 ^ k <=? a)%Z else (b <=? a * 10 ^ (- k))%Z.

(** The candidates with [k] digits for the number [r / s], whose
    neighbours are half-way at [low / s] and [high / s]: the multiples of
    [10^p] just below and just above it, [p] being such that they have [k]
    digits.  The one that denotes the number is returned, the closer one
    when both do. *)
Definition candidate (r s low high : Z) (incl : bool) (n k : Z) : option (Z * Z) :=
  let p := (n - k)%Z in
  let up := (10 ^ Z.max p 0)%Z in
  let dn := (10 ^ Z.max (- p) 0)%Z in
  (* the value [c * 10^p] is [c * up * s / (dn * s)]; bounds over [dn * s] *)
  let s0 := ((r * dn) / (s * up))%Z in
  let s1 := (s0 + 1)%Z in
  let v0 := (s0 * up * s)%Z in
  let v1 := (s1 * up * s)%Z in
  let x := (r * dn)%Z in
  let lo := (low * dn)%Z in
  let hi := (high * dn)%Z in
  let ok0 := if incl then (lo <=? v0)%Z else (lo <? v0)%Z in
  let ok1 := if incl then (v1 <=? hi)%Z else (v1 <? hi)%Z in
  match ok0, ok1 with
  | true, true =>
      match (x - v0 ?= v1 - x)%Z with
      | Lt => Some (s0, p)
      | Gt => Some (s1, p)
      | Eq => Some (if Z.even s0 then s0 else s1, p)
      end
  | true, false => Some (s0, p)
  | false, true => Some (s1, p)
  | false, false => None
  end.

Fixpoint shortestFrom (r s low high : Z) (incl : bool) (n : Z) (k : Z) (fuel : nat)
    : Z * Z :=
  match fuel with
  | O => ((r * 10 ^ Z.max (k - n) 0) / (s * 10 ^ Z.max (n - k) 0), n - k)%Z
  | S fuel' =>
      match candidate r s low high incl n k with
      | Some c => c
      | None => shortestFrom r s low high incl n (k + 1)%Z fuel'
      end
  end.

(** The shortest decimal that denotes a finite number, that is, that
    rounds to it: [(d, p)] for the magnitude [d * 10^p], with as few
    digits in [d] as can be and then as close to the number as can be.
    The number is [r / s] with [r = 4 m 2^e] and [s = 4], or [r = 4 m] and
    [s = 4 * 2^(-e)]; the numbers that round to it lie between [low / s]
    and [high / s], the bounds included when [m] is even. *)
Definition shortestDecimal (x : number) : Z * Z :=
  match Prim2SF x with
  | S754_finite _ m e =>
      let up := (2 ^ Z.max e 0)%Z in
      let dn := (2 ^ Z.max (- e) 0)%Z in
      let s := (4 * dn)%Z in
      let r := (4 * Z.pos m * up)%Z in
      let above := (2 * up)%Z in
      let below := if (Z.pos m =? 2 ^ 52)%Z && (-1074 <? e)%Z then up else above in
      let low := (r - below)%Z in
      let high := (r + above)%Z in
      let lr := Z.of_nat (String.length (decimal r)) in
      let ls := Z.of_nat (String.length (decimal s)) in
      let n := if atLeastPow10 r s (lr - ls) then (lr - ls + 1)%Z else (lr - ls)%Z in
      shortestFrom r s low high (Z.even (Z.pos m)) n 1 17
  | _ => (0, 0)%Z
  end.

(** The integer nearest to [d * 10^(p + f)], the one away from zero on a tie. *)
Definition roundedShortest (x : number) (f : nat) : Z :=
  let (d, p) := shortestDecimal x in
  let q := (p + Z.of_nat f)%Z in
  if (0 <=? q)%Z then (d * 10 ^ q)%Z
  else ((2 * d + 10 ^ (- q)) / (2 * 10 ^ (- q)))%Z.

(** [x.toLocaleString(undefined, { maximumFractionDigits })]: decimal
    style, no minimum of fraction digits.  The formatter of the engines
    (ICU) takes the shortest decimal that denotes the number and rounds
    it to the fraction digits asked for, half away from zero; so 1.005 at
    two digits is "1.01", where [toFixed], which reads the exact value,
    gives "1.00".  The pages ask for 0, 1 or 2 fraction digits; the host
    accepts up to 100. *)
Definition toLocaleString (loc : Locale) (x : number) (maximumFractionDigits : nat) : string :=
  if is_nan x then "NaN"
  else
    let s := if get_sign x then "-" else "" in
    if is_infinity x then s ++ "∞"
    else
      let f := maximumFractionDigits in
      let n := roundedShortest (abs x) f in
      let p := (10 ^ Z.of_nat f)%Z in
      let int := decimal (n / p) in
      let frac := decimal (n mod p) in
      let frac := stripZeros (zeros (f - String.length frac) ++ frac) in
      s ++ grouped (groupSep loc) int
        ++ (if frac =? "" then "" else decimalSep loc ++ frac).

End JS.

(* ================================================================= *)
(** ** [lib/api]: what the data collaborators deliver *)

Record Filing := {
  accession : string;
  form : string;
  periodEnd : string;
  filedAt : string;
  parseStatus : string
}.

Record SeriesPoint := {
  date : string;
  value : JS.number
}.

Record Series := {
  series_key : string;
  unit : option string;
  points : list SeriesPoint
}.

(** The payload of [getTickerMetrics]: [{ series: Series[] }]. *)
Record Metrics := {
  series : list Series
}.

(* ================================================================= *)
(** ** [pages/Compare.tsx] *)

Module Compare.

Import JS.

(** [pctDelta(from?, to?)]. *)
Definition pctDelta (from to : option number) : option number :=
  match from, to with
  | Some from, Some to =>
      if (from =? 0)%float then None
      else Some (((to - from) / from) * 100)%float
  | _, _ => None
  end.

(** An entry of [METRICS] and of [TABLE_KEYS]. *)
Record MetricSpec := {
  key : string;
  label : string;
  digits : option nat;
  asPct : option bool
}.

Definition TABLE_KEYS : list MetricSpec := [
  {| key := "revenue";          label := "Revenue ($m)";        digits := None;   asPct := None |};
  {| key := "gm";               label := "Gross Margin (%)";    digits := Some 1; asPct := Some true |};
  {| key := "eps_diluted";      label := "EPS (diluted, $/sh)"; digits := Some 2; asPct := None |};
  {| key := "assets";           label := "Assets ($m)";         digits := None;   asPct := None |};
  {| key := "liabilities";      label := "Liabilities ($m)";    digits := None;   asPct := None |};
  {| key := "operating_income"; label := "Operating Inc. ($m)"; digits := None;   asPct := None |};
  {| key := "net_income";       label := "Net Income ($m)";     digits := None;   asPct := None |};
  {| key := "equity";           label := "Equity ($m)";         digits := None;   asPct := None |}
].

(** A row of the table: [{ ...k, l, r, d, dpct }]. *)
Record Row := {
  spec : MetricSpec;
  l : option number;
  r : option number;
  d : option number;
  dpct : option number
}.

(** [filingsQ.data?.find(f => f.accession === acc)?.periodEnd]. *)
Definition periodOf (filings : option (list Filing)) (acc : string) : option string :=
  match filings with
  | Some fs => option_map periodEnd (find (fun f => accession f =? acc) fs)
  | None => None
  end.

(** [!!(leftAcc && rightAcc && leftDate && rightDate)]. *)
Definition ready (leftAcc rightAcc : string) (leftDate rightDate : option string) : bool :=
  truthy_string leftAcc && truthy_string rightAcc
    && truthy_opt truthy_string leftDate && truthy_opt truthy_string rightDate.

Section Page.

(** [metricsQ.data], undefined until the query has answered. *)
Variable metrics : option Metrics.

(** [valAt(key, d)]. *)
Definition valAt (key : string) (d : option string) : option number :=
  match d with
  | None => None
  | Some d =>
      if negb (truthy_string d) then None
      else
        let s :=
          match metrics with
          | Some data =>
              match find (fun x => series_key x =? key) (series data) with
              | Some x => points x
              | None => []
              end
          | None => []
          end in
        let p := find (fun pt => date pt =? d) s in
        option_map value p
  end.

Variables leftDate rightDate : option string.

(** The body of [TABLE_KEYS.map(k => ...)]. *)
Definition row (k : MetricSpec) : Row :=
  let lRaw := valAt (key k) leftDate in
  let rRaw := valAt (key k) rightDate in
  let l := if truthy_opt id (asPct k)
           then match lRaw with Some v => Some (v * 100)%float | None => None end
           else lRaw in
  let r := if truthy_opt id (asPct k)
           then match rRaw with Some v => Some (v * 100)%float | None => None end
           else rRaw in
  let d := match l, r with
           | Some l, Some r => Some (r - l)%float
           | _, _ => None
           end in
  let dpct := pctDelta l r in
  {| spec := k; l := l; r := r; d := d; dpct := dpct |}.

Definition rows : list Row := map row TABLE_KEYS.

End Page.

Section Host.

Variable Number_toString : number -> string.
Variable locale : Locale.

(** [fmt(n?, digits = 0)]. *)
Definition fmt (n : option number) (digits : option nat) : string :=
  match n with
  | None => "—"
  | Some n =>
      if is_nan n then "—"
      else toLocaleString locale n (match digits with Some g => g | None => 0 end)
  end.

(** [x! >= 0] and [(x ?? 0) >= 0]; comparing [undefined] gives false,
    comparing the default [0] gives true. *)
Definition ge0_unchecked (x : option number) : bool :=
  match x with
  | Some v => ge0 v
  | None => false
  end.

Definition ge0_or0 (x : option number) : bool :=
  match x with
  | Some v => ge0 v
  | None => ge0 0%float
  end.

(** [Math.abs(x).toFixed(1)]. *)
Definition pct1 (x : number) : string :=
  toFixed Number_toString (Math_abs x) 1.

(** The sentences, one per [if (...) out.push(...)] of [bullets]; each
    is [None] when its guard fails. *)
Definition bullet_revenue (rev : Row) : option string :=
  match dpct rev with
  | Some p =>
      Some ("Revenue " ++ (if ge0 p then "increased" else "decreased") ++ " "
            ++ pct1 p ++ "% ("
            ++ (if ge0_unchecked (d rev) then "+" else "") ++ fmt (d rev) (Some 0)
            ++ "), from " ++ fmt (l rev) (Some 0) ++ " to " ++ fmt (r rev) (Some 0) ++ ".")
  | None => None
  end.

Definition bullet_gm (gm : Row) : option string :=
  match d gm with
  | Some dv =>
      Some ("Gross margin " ++ (if ge0_or0 (d gm) then "expanded" else "contracted") ++ " "
            ++ pct1 dv ++ " p.p., from "
            ++ fmt (l gm) (Some 1) ++ "% to " ++ fmt (r gm) (Some 1) ++ "%.")
  | None => None
  end.

Definition bullet_eps (eps : Row) : option string :=
  match dpct eps with
  | Some p =>
      Some ("EPS (diluted) " ++ (if ge0 p then "rose" else "fell") ++ " "
            ++ pct1 p ++ "%, from "
            ++ fmt (l eps) (Some 2) ++ " to " ++ fmt (r eps) (Some 2) ++ ".")
  | None => None
  end.

Definition bullet_oi (oi : Row) : option string :=
  match dpct oi with
  | Some p =>
      Some ("Operating income " ++ (if ge0 p then "up" else "down") ++ " "
            ++ pct1 p ++ "% ("
            ++ (if ge0_unchecked (d oi) then "+" else "") ++ fmt (d oi) (Some 0) ++ ").")
  | None => None
  end.

Definition bullet_ni (ni : Row) : option string :=
  match dpct ni with
  | Some p =>
      Some ("Net income " ++ (if ge0 p then "improved" else "declined") ++ " "
            ++ pct1 p ++ "% ("
            ++ (if ge0_unchecked (d ni) then "+" else "") ++ fmt (d ni) (Some 0) ++ ").")
  | None => None
  end.

Definition bullet_ast (ast : Row) : option string :=
  match dpct ast with
  | Some p =>
      Some ("Assets " ++ (if ge0 p then "grew" else "declined") ++ " " ++ pct1 p ++ "%.")
  | None => None
  end.

Definition bullet_li (li : Row) : option string :=
  match dpct li with
  | Some p =>
      Some ("Liabilities " ++ (if ge0 p then "increased" else "decreased") ++ " "
            ++ pct1 p ++ "%.")
  | None => None
  end.

Definition bullet_eq (eq : Row) : option string :=
  match dpct eq with
  | Some p =>
      Some ("Equity " ++ (if ge0 p then "expanded" else "contracted") ++ " "
            ++ pct1 p ++ "%.")
  | None => None
  end.

(** [if (x?.guard != null) out.push(sentence)]: nothing is pushed when
    the row is missing or its guard fails. *)
Definition pushIf (out : list string) (x : option Row)
    (sentence : Row -> option string) : list string :=
  match x with
  | Some x =>
      match sentence x with
      | Some s => push out s
      | None => out
      end
  | None => out
  end.

(** [bullets()], over the [ready] flag and the [rows] it closes over. *)
Definition bullets (ready : bool) (rows : list Row) : list string :=
  if negb ready then []
  else
    let get := fun k => find (fun r => key (spec r) =? k) rows in
    let rev := get "revenue" in
    let gm := get "gm" in
    let eps := get "eps_diluted" in
    let ast := get "assets" in
    let li := get "liabilities" in
    let oi := get "operating_income" in
    let ni := get "net_income" in
    let eq := get "equity" in
    let out := [] in
    let out := pushIf out rev bullet_revenue in
    let out := pushIf out gm bullet_gm in
    let out := pushIf out eps bullet_eps in
    let out := pushIf out oi bullet_oi in
    let out := pushIf out ni bullet_ni in
    let out := pushIf out ast bullet_ast in
    let out := pushIf out li bullet_li in
    let out := pushIf out eq bullet_eq in
    out.

Definition cell_r (x : Row) : string := fmt (r x) (digits (spec x)).
Definition cell_d (r : Row) : string := fmt (d r) (digits (spec r)).

(** The summary of the page for the query parameters [left] and [right]. *)
Definition summary (leftAcc rightAcc : string) (filings : option (list Filing))
    (metrics : option Metrics) : list string :=
  let leftDate := periodOf filings leftAcc in
  let rightDate := periodOf filings rightAcc in
  bullets (ready leftAcc rightAcc leftDate rightDate)
          (rows metrics leftDate rightDate).

(** *** The narrative read as the specification words it

    The definitions from here to [NARRATIVE_ORDER] are not in the source:
    they state "one sentence per metric, in a given order of the metrics",
    to be compared with [bullets]. *)

(** The sentence a metric contributes, by its key. *)
Definition sentenceFor (k : string) : Row -> option string :=
  if k =? "revenue" then bullet_revenue
  else if k =? "gm" then bullet_gm
  else if k =? "eps_diluted" then bullet_eps
  else if k =? "assets" then bullet_ast
  else if k =? "liabilities" then bullet_li
  else if k =? "operating_income" then bullet_oi
  else if k =? "net_income" then bullet_ni
  else if k =? "equity" then bullet_eq
  else fun _ => None.

(** The narrative that visits the metrics in a given order: for each key
    the sentence of the row with that key, when there is one. *)
Definition narrativeIn (order : list string) (rows : list Row) : list string :=
  flat_map
    (fun k =>
       match find (fun r => key (spec r) =? k) rows with
       | Some x =>
           match sentenceFor k x with
           | Some s => [s]
           | None => []
           end
       | None => []
       end)
    order.

End Host.

(** The order of the metric catalog, which is the order of the table. *)
Definition catalogOrder : list string := map key TABLE_KEYS.

(** The order in which [bullets] pushes its sentences, read off its
    eight [if (...) out.push(...)] statements. *)
Definition NARRATIVE_ORDER : list string :=
  [ "revenue"; "gm"; "eps_diluted"; "operating_income"; "net_income";
    "assets"; "liabilities"; "equity" ].

End Compare.

(* ================================================================= *)
(** ** [pages/Ticker.tsx]: the margins of the selected filing *)

Module Ticker.

Import JS.

Section Page.

Variable metrics : option Metrics.

(** [metricsQ.data?.series ?? []]. *)
Definition allSeries : list Series :=
  match metrics with
  | Some data => series data
  | None => []
  end.

(** [valAt(key, d)]. *)
Definition valAt (key : string) (d : option string) : option number :=
  match d with
  | None => None
  | Some d =>
      if negb (truthy_string d) then None
      else
        let pts :=
          match find (fun s => series_key s =? key) allSeries with
          | Some s => points s
          | None => []
          end in
        let p := find (fun pt => date pt =? d) pts in
        option_map value p
  end.

(** [selected?.periodEnd || series.find(...)?.points.slice(-1)[0]?.date]. *)
Definition selectedDateOf (selected : option Filing) : option string :=
  let latest :=
    match find (fun s => series_key s =? "revenue") allSeries with
    | Some s => option_map date (nth_error (points s) (List.length (points s) - 1))
    | None => None
    end in
  match selected with
  | Some f => if truthy_string (periodEnd f) then Some (periodEnd f) else latest
  | None => latest
  end.

Variable selectedDate : option string.

Definition rev : option number := valAt "revenue" selectedDate.
Definition gp : option number := valAt "gross_profit" selectedDate.

(** [(gp != null && rev) ? gp / rev : undefined]. *)
Definition gmRatio : option number :=
  match gp, rev with
  | Some gp, Some rev => if truthy_number rev then Some (gp / rev)%float else None
  | _, _ => None
  end.

Definition oi : option number := valAt "operating_income" selectedDate.
Definition ni : option number := valAt "net_income" selectedDate.

Definition opMargin : option number :=
  match oi, rev with
  | Some oi, Some rev => if truthy_number rev then Some (oi / rev)%float else None
  | _, _ => None
  end.

Definition netMargin : option number :=
  match ni, rev with
  | Some ni, Some rev => if truthy_number rev then Some (ni / rev)%float else None
  | _, _ => None
  end.

End Page.

End Ticker.

(* ================================================================= *)
(** ** Strings, URLs and query strings of the runtime

    A JavaScript string is held as the bytes of its UTF-8 encoding, which
    is what a Rocq [string] of a well-formed text is.  The functions below
    are the built-ins the pages call, after ECMA-262 ([toUpperCase],
    [replace], [encodeURIComponent], [parseInt], [String]), the URL
    standard ([URLSearchParams]) and react-router ([parsePath]). *)

Module Text.

Import JS.

(** *** Characters *)

Definition isUpper (c : ascii) : bool :=
  let n := nat_of_ascii c in Nat.leb 65 n && Nat.leb n 90.

Definition isLower (c : ascii) : bool :=
  let n := nat_of_ascii c in Nat.leb 97 n && Nat.leb n 122.

Definition isDigit (c : ascii) : bool :=
  let n := nat_of_ascii c in Nat.leb 48 n && Nat.leb n 57.

Definition isAlnum (c : ascii) : bool := isUpper c || isLower c || isDigit c.

Definition charIn (c : ascii) (cs : string) : bool :=
  existsb (Ascii.eqb c) (list_ascii_of_string cs).

(** [String.prototype.toUpperCase] on the ASCII letters.  A character
    outside ASCII is left as it is; its upper case is never made of the
    letters A, L and P alone, so whether the result is ["AAPL"], the one
    key the pages look up, is decided as in the runtime. *)
Definition upperChar (c : ascii) : ascii :=
  if isLower c then ascii_of_nat (nat_of_ascii c - 32) else c.

Fixpoint toUpperCase (s : string) : string :=
  match s with
  | "" => ""
  | String c s' => String (upperChar c) (toUpperCase s')
  end.

(** [s.replace(/-/g, "")]. *)
Fixpoint removeDashes (s : string) : string :=
  match s with
  | "" => ""
  | String c s' => if Ascii.eqb c "-" then removeDashes s' else String c (removeDashes s')
  end.

(** *** Percent encoding *)

Definition hexDigit (n : nat) : ascii :=
  if Nat.ltb n 10 then ascii_of_nat (48 + n) else ascii_of_nat (55 + n).

Definition hexValue (c : ascii) : option nat :=
  let n := nat_of_ascii c in
  if isDigit c then Some (n - 48)
  else if Nat.leb 65 n && Nat.leb n 70 then Some (n - 55)
  else if Nat.leb 97 n && Nat.leb n 102 then Some (n - 87)
  else None.

(** ["%XY"] for a byte. *)
Definition percentByte (c : ascii) : string :=
  let n := nat_of_ascii c in
  String "%" (String (hexDigit (n / 16)) (String (hexDigit (n mod 16)) "")).

(** The characters [encodeURIComponent] leaves as they are. *)
Definition uriUnreserved (c : ascii) : bool :=
  isAlnum c || charIn c "-_.!~*'()".

Fixpoint encodeURIComponent (s : string) : string :=
  match s with
  | "" => ""
  | String c s' =>
      (if uriUnreserved c then String c "" else percentByte c) ++ encodeURIComponent s'
  end.

(** Percent-decoding of the URL standard: a ["%"] that is not followed by
    two hexadecimal digits stays.  The bytes it gives are kept as they
    are: the parser of the standard goes on to decode them as UTF-8,
    which changes nothing in the encoding of a text and puts U+FFFD in
    the place of bytes that are not one, as in ["%FF"]. *)
Fixpoint percentDecode (s : string) : string :=
  match s with
  | "" => ""
  | String c t =>
      if Ascii.eqb c "%" then
        match t with
        | String h (String l rest) =>
            match hexValue h, hexValue l with
            | Some a, Some b => String (ascii_of_nat (16 * a + b)) (percentDecode rest)
            | _, _ => String c (percentDecode t)
            end
        | _ => String c (percentDecode t)
        end
      else String c (percentDecode t)
  end.

(** *** [URLSearchParams] *)

(** The list of name-value pairs of the object. *)
Definition URLSearchParams := list (string * string).

(** The pieces of [s] between the occurrences of [sep]. *)
Fixpoint splitOn (sep : ascii) (s : string) : list string :=
  match s with
  | "" => [""]
  | String c s' =>
      if Ascii.eqb c sep then "" :: splitOn sep s'
      else
        match splitOn sep s' with
        | piece :: pieces => String c piece :: pieces
        | [] => [String c ""]
        end
  end.

(** A piece cut at its first ["="]: the name, and the value ([""] when
    there is no ["="]). *)
Fixpoint cutAtEquals (s : string) : string * string :=
  match s with
  | "" => ("", "")
  | String c s' =>
      if Ascii.eqb c "=" then ("", s')
      else let (n, v) := cutAtEquals s' in (String c n, v)
  end.

Fixpoint plusToSpace (s : string) : string :=
  match s with
  | "" => ""
  | String c s' => String (if Ascii.eqb c "+" then " "%char else c) (plusToSpace s')
  end.

(** The [application/x-www-form-urlencoded] parser. *)
Definition parseForm (s : string) : URLSearchParams :=
  map (fun piece =>
         let (n, v) := cutAtEquals piece in
         (percentDecode (plusToSpace n), percentDecode (plusToSpace v)))
      (filter (fun piece => negb (piece =? "")) (splitOn "&" s)).

(** [new URLSearchParams(init)] for a string: a leading ["?"] is dropped. *)
Definition parseSearch (init : string) : URLSearchParams :=
  match init with
  | String c s' => if Ascii.eqb c "?" then parseForm s' else parseForm init
  | "" => parseForm init
  end.

(** The characters the serializer leaves as they are. *)
Definition formSafe (c : ascii) : bool :=
  isAlnum c || charIn c "*-._".

Fixpoint formEncode (s : string) : string :=
  match s with
  | "" => ""
  | String c s' =>
      (if formSafe c then String c ""
       else if Ascii.eqb c " " then "+"
       else percentByte c) ++ formEncode s'
  end.

(** [sp.toString()]: the [application/x-www-form-urlencoded] serializer. *)
Fixpoint serialize (sp : URLSearchParams) : string :=
  match sp with
  | [] => ""
  | (n, v) :: rest =>
      formEncode n ++ "=" ++ formEncode v
        ++ match rest with
           | [] => ""
           | _ :: _ => "&" ++ serialize rest
           end
  end.

(** [sp.get(name)]: the value of the first pair with the name. *)
Definition get (sp : URLSearchParams) (name : string) : option string :=
  option_map snd (find (fun p => fst p =? name) sp).

(** [sp.delete(name)]: every pair with the name goes. *)
Definition delete (sp : URLSearchParams) (name : string) : URLSearchParams :=
  filter (fun p => negb (fst p =? name)) sp.

(** [sp.set(name, value)]: the first pair with the name takes the value
    and the others go; without such a pair, one is appended. *)
Fixpoint set (sp : URLSearchParams) (name value : string) : URLSearchParams :=
  match sp with
  | [] => [(name, value)]
  | p :: rest =>
      if fst p =? name then (name, value) :: delete rest name
      else p :: set rest name value
  end.

(** *** react-router *)

Fixpoint upTo (sep : ascii) (s : string) : string :=
  match s with
  | "" => ""
  | String c s' => if Ascii.eqb c sep then "" else String c (upTo sep s')
  end.

Fixpoint from (sep : ascii) (s : string) : string :=
  match s with
  | "" => ""
  | String c s' => if Ascii.eqb c sep then s else from sep s'
  end.

(** [parsePath(to).search]: what follows the first ["?"], with it, up to
    the first ["#"]; [""] when there is no ["?"]. *)
Definition searchOf (to : string) : string :=
  from "?" (upTo "#" to).

(** *** [parseInt(s, 10)] and [String(n)] *)

Definition isSpace (c : ascii) : bool :=
  let n := nat_of_ascii c in Nat.eqb n 32 || (Nat.leb 9 n && Nat.leb n 13).

Fixpoint trimStart (s : string) : string :=
  match s with
  | "" => ""
  | String c s' => if isSpace c then trimStart s' else s
  end.

(** The value of the longest prefix of decimal digits, [None] when the
    prefix is empty. *)
Fixpoint digitsPrefix (acc : option Z) (s : string) : option Z :=
  match s with
  | "" => acc
  | String c s' =>
      if isDigit c then
        let v := Z.of_nat (nat_of_ascii c - 48) in
        digitsPrefix (Some (match acc with Some a => 10 * a + v | None => v end)%Z) s'
      else acc
  end.

(** [parseInt(s, 10)] as a sign and a magnitude, [None] for [NaN]; white
    space is the ASCII one. *)
Definition parseInt10 (s : string) : option (bool * Z) :=
  match trimStart s with
  | String c s' =>
      if Ascii.eqb c "-" then option_map (pair true) (digitsPrefix None s')
      else if Ascii.eqb c "+" then option_map (pair false) (digitsPrefix None s')
      else option_map (pair false) (digitsPrefix None (String c s'))
  | "" => None
  end.

Section Host.

Variable Number_toString : number -> string.

(** [String(parseInt(s, 10))]: the digits of the integer while it is
    below 2^53, where every integer is a number; beyond, the host prints
    the nearest number. *)
Definition String_parseInt10 (s : string) : string :=
  match parseInt10 s with
  | None => "NaN"
  | Some (neg, z) =>
      if (z <? 2 ^ 53)%Z then
        (if neg && negb (z =? 0)%Z then "-" else "") ++ decimal z
      else
        Number_toString
          (SF2Prim (binary_normalize prec emax (if neg then - z else z)%Z 0 false))
  end.

End Host.

End Text.

(* ================================================================= *)
(** ** [pages/Compare.tsx]: the query string, the chart and the cells *)

Module ComparePage.

Import JS Text.

(** [params.get("symbol") ?? "AAPL"], [params.get("left") ?? ""] and
    [params.get("right") ?? ""]. *)
Definition symbolOf (params : URLSearchParams) : string :=
  match get params "symbol" with Some s => s | None => "AAPL" end.

Definition leftAccOf (params : URLSearchParams) : string :=
  match get params "left" with Some s => s | None => "" end.

Definition rightAccOf (params : URLSearchParams) : string :=
  match get params "right" with Some s => s | None => "" end.

(** The metric tabs. *)
Definition METRICS : list Compare.MetricSpec := [
  {| Compare.key := "revenue";          Compare.label := "Revenue ($m)";
     Compare.digits := None;   Compare.asPct := None |};
  {| Compare.key := "gm";               Compare.label := "Gross Margin (%)";
     Compare.digits := Some 1; Compare.asPct := Some true |};
  {| Compare.key := "eps_diluted";      Compare.label := "EPS (diluted, $/sh)";
     Compare.digits := Some 2; Compare.asPct := None |};
  {| Compare.key := "assets";           Compare.label := "Assets ($m)";
     Compare.digits := None;   Compare.asPct := None |};
  {| Compare.key := "liabilities";      Compare.label := "Liabilities ($m)";
     Compare.digits := None;   Compare.asPct := None |};
  {| Compare.key := "operating_income"; Compare.label := "Operating Inc. ($m)";
     Compare.digits := None;   Compare.asPct := None |};
  {| Compare.key := "net_income";       Compare.label := "Net Income ($m)";
     Compare.digits := None;   Compare.asPct := None |};
  {| Compare.key := "equity";           Compare.label := "Equity ($m)";
     Compare.digits := None;   Compare.asPct := None |}
].

(** [METRICS.find(m => m.key === metricKey)!]; the assertion is erased at
    run time, so that the result may be undefined. *)
Definition activeMeta (metricKey : string) : option Compare.MetricSpec :=
  find (fun m => Compare.key m =? metricKey) METRICS.

(** A bar of the chart: [{ name, value }]. *)
Record ChartPoint := {
  chart_name : option string;
  chart_value : option number
}.

(** The callback of [chartData]; [None] is the [TypeError] of reading
    [asPct] off an undefined [activeMeta]. *)
Definition chartData (metrics : option Metrics) (leftDate rightDate : option string)
    (ready : bool) (metricKey : string) : option (list ChartPoint) :=
  if negb ready then Some []
  else
    match activeMeta metricKey with
    | None => None
    | Some meta =>
        let lRaw := Compare.valAt metrics metricKey leftDate in
        let rRaw := Compare.valAt metrics metricKey rightDate in
        let l := if truthy_opt id (Compare.asPct meta)
                 then match lRaw with Some v => Some (v * 100)%float | None => None end
                 else lRaw in
        let r := if truthy_opt id (Compare.asPct meta)
                 then match rRaw with Some v => Some (v * 100)%float | None => None end
                 else rRaw in
        Some [ {| chart_name := leftDate; chart_value := l |};
               {| chart_name := rightDate; chart_value := r |} ]
    end.

(** The colour of the two delta cells of a row. *)
Definition col (x : Compare.Row) : string :=
  let good := Compare.ge0_or0 (Compare.d x) in
  if negb (notNull (Compare.d x)) then "text-neutral-500"
  else if good then "text-green-600" else "text-red-600".

Section Host.

Variable Number_toString : number -> string.
Variable locale : Locale.

(** The cell of the percent delta. *)
Definition cell_dpct (x : Compare.Row) : string :=
  match Compare.dpct x with
  | Some p => (if ge0 p then "+" else "") ++ toFixed Number_toString p 1 ++ "%"
  | None => "—"
  end.

(** The summary the page prints for the location it is opened at. *)
Definition pageSummary (search : string) (filings : option (list Filing))
    (metrics : option Metrics) : list string :=
  let params := parseSearch search in
  Compare.summary Number_toString locale (leftAccOf params) (rightAccOf params)
                  filings metrics.

End Host.

End ComparePage.

(* ================================================================= *)
(** ** [pages/Ticker.tsx]: the filing list, the slots and the links *)

Module TickerPage.

Import JS Text.

Definition LIST_SIZE : nat := 5.

(** The entry of [map] for a key; the object literal has the one key. *)
Definition cikMap (k : string) : option string :=
  if k =? "AAPL" then Some "0000320193" else None.

Section Host.

Variable Number_toString : number -> string.

(** [edgarLinkForAccession(symbol, accession)]. *)
Definition edgarLinkForAccession (symbol accession : string) : string :=
  let cik := cikMap (toUpperCase symbol) in
  if negb (truthy_opt truthy_string cik)
  then "https://www.sec.gov/edgar/search/#/q=" ++ encodeURIComponent accession
  else
    let cikNum :=
      String_parseInt10 Number_toString (match cik with Some c => c | None => "" end) in
    let accNoDash := removeDashes accession in
    "https://www.sec.gov/Archives/edgar/data/" ++ cikNum ++ "/" ++ accNoDash
      ++ "/" ++ accNoDash ++ "-index.htm".

End Host.

(** [searchParams.get("a") ?? ""] and [searchParams.get("b") ?? ""]. *)
Definition slotOf (searchParams : URLSearchParams) (slot : string) : string :=
  match get searchParams slot with Some s => s | None => "" end.

Definition slotA (searchParams : URLSearchParams) : string := slotOf searchParams "a".
Definition slotB (searchParams : URLSearchParams) : string := slotOf searchParams "b".

(** [setSlot(slot, accession?)], up to the search parameters of the
    location it navigates to: [setSearchParams(sp, { replace: true })]
    goes to ["?" + sp] and the next render parses [location.search]. *)
Definition setSlot (searchParams : URLSearchParams) (slot : string)
    (accession : option string) : URLSearchParams :=
  let sp := searchParams in
  let sp :=
    match accession with
    | Some a => if truthy_string a then set sp slot a else delete sp slot
    | None => delete sp slot
    end in
  parseSearch (searchOf ("?" ++ serialize sp)).

(** The buttons A and B of a filing: [setSlot("a", aSel ? "" : f.accession)]. *)
Definition clickSlot (searchParams : URLSearchParams) (slot : string) (f : Filing)
    : URLSearchParams :=
  let sel := slotOf searchParams slot =? accession f in
  setSlot searchParams slot (Some (if sel then "" else accession f)).

(** The button Clear of a slot: [setSlot("a")]. *)
Definition clearSlot (searchParams : URLSearchParams) (slot : string) : URLSearchParams :=
  setSlot searchParams slot None.

(** [disabled={!slotA || !slotB}], negated. *)
Definition compareEnabled (searchParams : URLSearchParams) : bool :=
  negb (negb (truthy_string (slotA searchParams))
        || negb (truthy_string (slotB searchParams))).

(** The path the button Compare navigates to. *)
Definition comparePath (symbol : string) (searchParams : URLSearchParams) : string :=
  "/compare?symbol=" ++ encodeURIComponent symbol
    ++ "&left=" ++ encodeURIComponent (slotA searchParams)
    ++ "&right=" ++ encodeURIComponent (slotB searchParams).

(** [(filingsQ.data ?? []).filter(f => f.form === "10-K")]. *)
Definition tenKAll (filings : option (list Filing)) : list Filing :=
  filter (fun f => form f =? "10-K")
         (match filings with Some fs => fs | None => [] end).

(** [tenKAll[0] ?? null] and [tenKAll[0]?.accession]. *)
Definition defaultFiling (filings : option (list Filing)) : option Filing :=
  hd_error (tenKAll filings).

Definition latestAccession (filings : option (list Filing)) : option string :=
  option_map accession (hd_error (tenKAll filings)).

(** [tenKAll.slice(0, LIST_SIZE)], the filings listed, and whether the
    note "Showing latest 5 of n" is shown. *)
Definition listed (filings : option (list Filing)) : list Filing :=
  firstn LIST_SIZE (tenKAll filings).

Definition showsCount (filings : option (list Filing)) : bool :=
  Nat.ltb LIST_SIZE (List.length (tenKAll filings)).

(** [rows.filter(r => r.value != null)]. *)
Fixpoint defined (rows : list (string * option number)) : list (string * number) :=
  match rows with
  | [] => []
  | (k, Some v) :: rest => (k, v) :: defined rest
  | (_, None) :: rest => defined rest
  end.

(** The bars of the snapshot chart at the date [d]. *)
Definition snapshot (metrics : option Metrics) (d : option string)
    : list (string * number) :=
  defined [ ("Revenue",          Ticker.valAt metrics "revenue" d);
            ("Gross Profit",     Ticker.valAt metrics "gross_profit" d);
            ("Operating Income", Ticker.valAt metrics "operating_income" d);
            ("Net Income",       Ticker.valAt metrics "net_income" d) ].

End TickerPage.

(* ================================================================= *)
(** ** [pages/Filing.tsx] *)

Module FilingPage.

Import JS Text.

Section Host.

Variable Number_toString : number -> string.

(** [edgarLinkForAccession(accession, cik = "0000320193")]. *)
Definition edgarLinkForAccession (accession : string) (cik : option string) : string :=
  let cik := match cik with Some c => c | None => "0000320193" end in
  let cikNum := String_parseInt10 Number_toString cik in
  let accNoDash := removeDashes accession in
  "https://www.sec.gov/Archives/edgar/data/" ++ cikNum ++ "/" ++ accNoDash
    ++ "/" ++ accNoDash ++ "-index.htm".

End Host.

End FilingPage.

(* ================================================================= *)
(** ** Sample stores: two fiscal years of one ticker *)

Definition fy2022 : option string := Some "2022-09-24".
Definition fy2023 : option string := Some "2023-09-30".

(** A series with one point per fiscal year. *)
Definition twoYears (k : string) (a b : JS.number) : Series :=
  {| series_key := k; unit := None;
     points := [ {| date := "2022-09-24"; value := a |};
                 {| date := "2023-09-30"; value := b |} ] |}.

(** A series that has no point for 2023. *)
Definition only2022 (k : string) (a : JS.number) : Series :=
  {| series_key := k; unit := None;
     points := [ {| date := "2022-09-24"; value := a |} ] |}.

Definition storeOf (ss : list Series) : option Metrics := Some {| series := ss |}.

Definition revenue_spec : Compare.MetricSpec :=
  {| Compare.key := "revenue"; Compare.label := "Revenue ($m)";
     Compare.digits := None; Compare.asPct := None |}.

Definition gm_spec : Compare.MetricSpec :=
  {| Compare.key := "gm"; Compare.label := "Gross Margin (%)";
     Compare.digits := Some 1; Compare.asPct := Some true |}.

Local Open Scope float_scope.

(** Revenue of 100 and then 120. *)
Definition revenueStore : option Metrics :=
  storeOf [ twoYears "revenue" 100 120 ].

(** Revenue of 0 and then 50. *)
Definition zeroStore : option Metrics :=
  storeOf [ twoYears "revenue" 0 50 ].

(** Revenue reported for 2022 only. *)
Definition missingStore : option Metrics :=
  storeOf [ only2022 "revenue" 100 ].


(** Gross margin, as a fraction, of 0.400 and then 0.425. *)
Definition gmUpStore : option Metrics :=
  storeOf [ twoYears "gm" 0.400 0.425 ].

(** Assets of 100 and then 110, operating income of 10 and then 12. *)
Definition orderStore : option Metrics :=
  storeOf [ twoYears "assets" 100 110; twoYears "operating_income" 10 12 ].

(** Revenue of 200 with gross profit 80, operating income 50 and net
    income 40, in both years. *)
Definition marginStore : option Metrics :=
  storeOf [ twoYears "revenue" 200 200; twoYears "gross_profit" 80 80;
            twoYears "operating_income" 50 50; twoYears "net_income" 40 40 ].

(** Revenue of 0.1 against a gross profit of 1e308. *)
Definition overflowStore : option Metrics :=
  storeOf [ twoYears "revenue" 0.1 0.1; twoYears "gross_profit" 1e308 1e308 ].

(** Gross margin, as a fraction, of 2e306 and then 3e306: scaled by 100,
    both leave the range of binary64. *)
Definition gmHugeStore : option Metrics :=
  storeOf [ twoYears "gm" 2e306 3e306 ].

Local Close Scope float_scope.

(** ** What a guarded push of [bullets] adds to the output *)

Definition pushed (x : option Compare.Row) (sentence : Compare.Row -> option string)
    : list string :=
  match x with
  | Some x =>
      match sentence x with
      | Some s => [s]
      | None => []
      end
  | None => []
  end.

(** ** The policy of a derived ratio, read on its operands and result *)

(** [q] is what the guard [(num != null && den) ? num / den : undefined]
    gives for the numerator [num] and the denominator [den]: undefined
    when an operand is missing or the denominator is a zero or [NaN], the
    binary64 quotient otherwise; and that quotient is not [NaN] when both
    operands are finite. *)
Definition RatioPolicy (num den q : option JS.number) : Prop :=
  (num = None -> q = None) /\
  (den = None -> q = None) /\
  (forall v, den = Some v -> (v =? 0)%float = true -> q = None) /\
  (forall v, den = Some v -> is_nan v = true -> q = None) /\
  (forall n v, num = Some n -> den = Some v ->
     (v =? 0)%float = false -> is_nan v = false -> q = Some (n / v)%float) /\
  (forall n v x, num = Some n -> den = Some v -> q = Some x ->
     is_finite n = true -> is_finite v = true -> is_nan x = false).

(** ** Definitions used to state further properties *)

(** Every character of a string satisfies a test. *)
Fixpoint allChars (p : ascii -> bool) (s : string) : bool :=
  match s with
  | "" => true
  | String c s' => p c && allChars p s'
  end.

(** The test of not being a separator. *)
Definition isNot (sep : ascii) (c : ascii) : bool := negb (Ascii.eqb c sep).

(** The characters of an encoded text: none of them delimits a part of a
    path or of a query string. *)
Definition quiet (c : ascii) : bool := negb (Text.charIn c "&=#?").
Definition plain (c : ascii) : bool := negb (Text.charIn c "&=#?+").

(** Whether a row gets a sentence: on its absolute delta for the gross
    margin, on its percent delta for the other metrics. *)
Definition hasSentence (x : Compare.Row) : bool :=
  if Compare.key (Compare.spec x) =? "gm" then JS.notNull (Compare.d x)
  else JS.notNull (Compare.dpct x).

(** [get] of [bullets], on the rows of the table. *)
Definition getRow (metrics : option Metrics) (p1 p2 : option string) (k : string)
    : option Compare.Row :=
  find (fun r => Compare.key (Compare.spec r) =? k)%string
       (Compare.rows metrics p1 p2).

(** Two 10-K filings of the sample ticker. *)
Definition filing2022 : Filing :=
  {| accession := "0000320193-22-000108"; form := "10-K";
     periodEnd := "2022-09-24"; filedAt := "2022-10-28"; parseStatus := "done" |}.

Definition filing2023 : Filing :=
  {| accession := "0000320193-23-000106"; form := "10-K";
     periodEnd := "2023-09-30"; filedAt := "2023-11-03"; parseStatus := "done" |}.

(** Two series under the key of revenue; the second one is never read. *)
Definition duplicateStore : option Metrics :=
  storeOf [ twoYears "revenue" 100%float 120%float; twoYears "revenue" 1%float 2%float ].

(* ================================================================= *)
(** ** Facts about binary64 arithmetic used below *)

Section FloatFacts.

Local Open Scope float_scope.

(** A number that compares equal to [0] is one of the two zeros. *)
Lemma eqb_zero_inv (x : float) :
  (x =? 0) = true -> exists s, Prim2SF x = S754_zero s.
Proof.
  rewrite eqb_spec.
  change (Prim2SF 0) with (S754_zero false).
  destruct (Prim2SF x) as [s| s | |s m e]; cbn; try discriminate;
    try (destruct s; discriminate).
  intros _. now exists s.
Qed.

Lemma zero_eqb (x : float) (s : bool) :
  Prim2SF x = S754_zero s -> (x =? 0) = true.
Proof.
  intros E. rewrite eqb_spec, E. reflexivity.
Qed.

(** Scaling a zero by 100 gives a zero. *)
Lemma mul100_zero (x : float) :
  (x =? 0) = true -> (x * 100 =? 0) = true.
Proof.
  intros [s E]%eqb_zero_inv.
  apply (zero_eqb _ (xorb s false)).
  rewrite mul_spec, E. reflexivity.
Qed.

(** Two different numbers are different values. *)
Lemma eqb_false_neq (a b : float) :
  (a =? b) = false -> is_nan a = false -> a <> b.
Proof.
  intros H N E. subst b. unfold is_nan in N. rewrite H in N. discriminate.
Qed.

Lemma Some_eqb_false_neq (a b : float) :
  (a =? b) = false -> is_nan a = false -> Some a <> Some b.
Proof.
  intros H N E. apply (eqb_false_neq a b H N). congruence.
Qed.

(** *** Subtraction is antisymmetric up to the sign of zero *)

Lemma SFeqb_refl (x : spec_float) : x <> S754_nan -> SFeqb x x = true.
Proof.
  destruct x as [s|s| |s m e]; intros H; try reflexivity.
  - now destruct s.
  - now elim H.
  - unfold SFeqb, SFcompare.
    destruct s; rewrite Z.compare_refl, Pos.compare_cont_refl; reflexivity.
Qed.

Lemma SFopp_involutive (x : spec_float) : SFopp (SFopp x) = x.
Proof. destruct x; cbn; now rewrite ?negb_involutive. Qed.

Lemma binary_round_aux_sign (s : bool) (m e : Z) (lc : location) :
  binary_round_aux prec emax (negb s) m e lc = SFopp (binary_round_aux prec emax s m e lc).
Proof.
  unfold binary_round_aux.
  destruct (shr_fexp prec emax m e lc) as [mrs' e'].
  destruct (shr_fexp prec emax _ e' loc_Exact) as [mrs'' e''].
  destruct (shr_m mrs''); try reflexivity.
  now destruct (e'' <=? emax - prec)%Z.
Qed.

Lemma binary_round_sign (s : bool) (m : positive) (e : Z) :
  binary_round prec emax (negb s) m e = SFopp (binary_round prec emax s m e).
Proof.
  unfold binary_round.
  destruct (shl_align m e _) as [mz ez].
  apply binary_round_aux_sign.
Qed.

Lemma binary_normalize_opp (m e : Z) :
  m <> 0%Z ->
  binary_normalize prec emax (- m) e false = SFopp (binary_normalize prec emax m e false).
Proof.
  destruct m as [|p|p]; intros H; [now elim H| |]; cbn [Z.opp binary_normalize].
  - apply (binary_round_sign false).
  - now rewrite (binary_round_sign false), SFopp_involutive.
Qed.

(** [sameNumber u v]: [u === v], or both are [NaN]. *)
Definition SFsame (u v : spec_float) : Prop :=
  SFeqb u v = true \/ (u = S754_nan /\ v = S754_nan).

Lemma SFsame_refl u : SFsame u u.
Proof.
  destruct u as [s|s| |s m e]; [left|left|right|left]; try (apply SFeqb_refl; discriminate). now split.
Qed.

Lemma SFsub_antisym (x y : spec_float) :
  SFsame (SF64sub y x) (SFopp (SF64sub x y)).
Proof.
  destruct x as [sx|sx| |sx mx ex], y as [sy|sy| |sy my ey];
    try (destruct sx, sy; cbn; first [ now left | now right ]);
    try (now right).
  all: unfold SF64sub, SFsub.
  all: try (cbn [SFopp]; rewrite ?negb_involutive; apply SFsame_refl).
  rewrite (Z.min_comm ey ex).
  set (ez := Z.min ex ey).
  set (cx := cond_Zopp sx _). set (cy := cond_Zopp sy _).
  destruct (Z.eq_dec (cx - cy) 0) as [E|N].
  - replace (cy - cx)%Z with 0%Z by lia. rewrite E. now left.
  - replace (cy - cx)%Z with (- (cx - cy))%Z by lia.
    rewrite binary_normalize_opp by exact N.
    apply SFsame_refl.
Qed.

Lemma is_nan_spec (x : float) : is_nan x = true <-> Prim2SF x = S754_nan.
Proof.
  unfold is_nan. rewrite eqb_spec. split.
  - intros H. destruct (Prim2SF x) eqn:E; try reflexivity;
      rewrite SFeqb_refl in H by discriminate; discriminate.
  - now intros ->.
Qed.

Lemma sub_antisym (a b : float) :
  (b - a =? - (a - b)) = true \/ (is_nan (b - a) = true /\ is_nan (a - b) = true).
Proof.
  rewrite !is_nan_spec, eqb_spec, opp_spec, !sub_spec.
  destruct (SFsub_antisym (Prim2SF a) (Prim2SF b)) as [H | [H1 H2]].
  - now left.
  - right. split; [exact H1|].
    destruct (SF64sub (Prim2SF a) (Prim2SF b)); try discriminate H2; reflexivity.
Qed.

(** *** Division never produces [NaN] from finite operands and a nonzero divisor *)

Lemma shr_1_nonneg (mrs : shr_record) :
  (0 <= shr_m mrs)%Z -> (0 <= shr_m (shr_1 mrs))%Z.
Proof.
  destruct mrs as [m r s]. destruct m as [|[p|p|]|p]; cbn; lia.
Qed.

Lemma iter_shr_1_nonneg (p : positive) :
  forall mrs, (0 <= shr_m mrs)%Z -> (0 <= shr_m (iter_pos shr_1 p mrs))%Z.
Proof.
  induction p as [p IH|p IH|]; intros mrs H; cbn.
  - apply IH, IH, shr_1_nonneg, H.
  - apply IH, IH, H.
  - apply shr_1_nonneg, H.
Qed.

Lemma shr_fexp_nonneg (m e : Z) (lc : location) :
  (0 <= m)%Z -> (0 <= shr_m (fst (shr_fexp prec emax m e lc)))%Z.
Proof.
  intros H. unfold shr_fexp, shr.
  assert (H0 : (0 <= shr_m (shr_record_of_loc m lc))%Z).
  { destruct lc as [|[]]; exact H. }
  destruct (fexp prec emax (Zdigits2 m + e) - e)%Z; cbn [fst]; try exact H0.
  now apply iter_shr_1_nonneg.
Qed.

Lemma round_nearest_even_nonneg (m : Z) (lc : location) :
  (0 <= m)%Z -> (0 <= round_nearest_even m lc)%Z.
Proof.
  intros H. destruct lc as [|[]]; cbn; try lia.
  destruct (Z.even m); lia.
Qed.

Lemma binary_round_aux_not_nan (s : bool) (m e : Z) (lc : location) :
  (0 <= m)%Z -> binary_round_aux prec emax s m e lc <> S754_nan.
Proof.
  intros H. unfold binary_round_aux.
  pose proof (shr_fexp_nonneg m e lc H) as H1.
  destruct (shr_fexp prec emax m e lc) as [mrs' e']. cbn [fst] in H1.
  pose proof (shr_fexp_nonneg _ e' loc_Exact
                (round_nearest_even_nonneg _ (loc_of_shr_record mrs') H1)) as H2.
  destruct (shr_fexp prec emax _ e' loc_Exact) as [mrs'' e'']. cbn [fst] in H2.
  destruct (shr_m mrs'') as [|q|q]; try discriminate.
  - now destruct (e'' <=? emax - prec)%Z.
  - lia.
Qed.

Lemma SFdiv_finite_not_nan (sx sy : bool) (mx my : positive) (ex ey : Z) :
  SF64div (S754_finite sx mx ex) (S754_finite sy my ey) <> S754_nan.
Proof.
  unfold SF64div, SFdiv, SFdiv_core_binary.
  set (e' := Z.min _ _). set (s := (ex - ey - e')%Z).
  set (m' := match s with Z.pos _ => Z.shiftl (Z.pos mx) s | Z0 => Z.pos mx | Z.neg _ => 0%Z end).
  assert (Hm : (0 <= m')%Z).
  { subst m'. destruct s; try lia. apply Z.shiftl_nonneg. lia. }
  pose proof (Z.div_pos m' (Z.pos my) Hm eq_refl) as Hq.
  unfold Z.div in Hq.
  destruct (Z.div_eucl m' (Z.pos my)) as [q r]. cbn [fst] in Hq.
  now apply binary_round_aux_not_nan.
Qed.

Lemma is_finite_spec (x : float) :
  is_finite x = true ->
  (exists s, Prim2SF x = S754_zero s) \/ (exists s m e, Prim2SF x = S754_finite s m e).
Proof.
  unfold is_finite, is_infinity, is_nan.
  rewrite !eqb_spec, abs_spec.
  change (Prim2SF infinity) with (S754_infinity false).
  destruct (Prim2SF x) as [s|s| |s m e]; cbn; try discriminate.
  - intros _. left. now exists s.
  - destruct s; discriminate.
  - intros _. right. now exists s, m, e.
Qed.

Lemma div_finite_not_nan (n d : float) :
  is_finite n = true -> is_finite d = true -> (d =? 0) = false ->
  is_nan (n / d) = false.
Proof.
  intros Hn Hd Hz.
  apply not_true_is_false. rewrite is_nan_spec, div_spec.
  apply is_finite_spec in Hd. destruct Hd as [[s E]|[sd [md [ed Ed]]]].
  - rewrite (zero_eqb _ _ E) in Hz. discriminate.
  - rewrite Ed. apply is_finite_spec in Hn.
    destruct Hn as [[s ->]|[sn [mn [en ->]]]].
    + discriminate.
    + apply SFdiv_finite_not_nan.
Qed.

(** *** Subtraction never produces [NaN] from finite operands *)

Lemma binary_round_not_nan (s : bool) (m : positive) (e : Z) :
  binary_round prec emax s m e <> S754_nan.
Proof.
  unfold binary_round. destruct (shl_align m e _) as [mz ez].
  apply binary_round_aux_not_nan. lia.
Qed.

Lemma SFsub_finite_not_nan (sx sy : bool) (mx my : positive) (ex ey : Z) :
  SF64sub (S754_finite sx mx ex) (S754_finite sy my ey) <> S754_nan.
Proof.
  unfold SF64sub, SFsub, binary_normalize.
  destruct (_ - _)%Z; [discriminate | |]; apply binary_round_not_nan.
Qed.

Lemma sub_finite_not_nan (a b : float) :
  is_finite a = true -> is_finite b = true -> is_nan (a - b) = false.
Proof.
  intros Ha Hb. apply not_true_is_false. rewrite is_nan_spec, sub_spec.
  destruct (is_finite_spec a Ha) as [[sa ->]|[sa [ma [ea ->]]]];
    destruct (is_finite_spec b Hb) as [[sb ->]|[sb [mb [eb ->]]]].
  - destruct sa, sb; discriminate.
  - discriminate.
  - discriminate.
  - apply SFsub_finite_not_nan.
Qed.

End FloatFacts.

(* ================================================================= *)
(** ** The comparison rows *)

Section RowFacts.

Import JS.

Variable metrics : option Metrics.
Variables leftDate rightDate : option string.

Lemma In_rows (x : Compare.Row) :
  In x (Compare.rows metrics leftDate rightDate) ->
  exists k, In k Compare.TABLE_KEYS /\ x = Compare.row metrics leftDate rightDate k.
Proof.
  unfold Compare.rows. rewrite in_map_iff.
  intros [k [E H]]. exists k. split; [exact H | symmetry; exact E].
Qed.

(** The scaled operands of a row, as the delta arithmetic receives them. *)
Lemma row_l (k : Compare.MetricSpec) :
  Compare.l (Compare.row metrics leftDate rightDate k) =
  if truthy_opt id (Compare.asPct k)
  then option_map (fun v => v * 100)%float (Compare.valAt metrics (Compare.key k) leftDate)
  else Compare.valAt metrics (Compare.key k) leftDate.
Proof.
  unfold Compare.row; cbn.
  destruct (truthy_opt id (Compare.asPct k)); [|reflexivity].
  now destruct (Compare.valAt metrics (Compare.key k) leftDate).
Qed.

Lemma row_r (k : Compare.MetricSpec) :
  Compare.r (Compare.row metrics leftDate rightDate k) =
  if truthy_opt id (Compare.asPct k)
  then option_map (fun v => v * 100)%float (Compare.valAt metrics (Compare.key k) rightDate)
  else Compare.valAt metrics (Compare.key k) rightDate.
Proof.
  unfold Compare.row; cbn.
  destruct (truthy_opt id (Compare.asPct k)); [|reflexivity].
  now destruct (Compare.valAt metrics (Compare.key k) rightDate).
Qed.

Lemma row_d (k : Compare.MetricSpec) :
  let x := Compare.row metrics leftDate rightDate k in
  Compare.d x =
  match Compare.l x, Compare.r x with
  | Some a, Some b => Some (b - a)%float
  | _, _ => None
  end.
Proof. reflexivity. Qed.

Lemma row_dpct (k : Compare.MetricSpec) :
  let x := Compare.row metrics leftDate rightDate k in
  Compare.dpct x = Compare.pctDelta (Compare.l x) (Compare.r x).
Proof. reflexivity. Qed.

End RowFacts.

(* ================================================================= *)
(** ** The delta calculator *)

Section DeltaCalculator.

Import JS.
Local Open Scope float_scope.

Variable metrics : option Metrics.

(** C10. In every row of the comparison table a defined percent delta
    comes with a defined absolute delta.  The row may be reached as an
    element of [rows] or through the [get] of [bullets]
    ([rows.find(r => r.key === k)]), so the dereferences [rev.d!],
    [oi.d!] and [ni.d!], made under the guard [dpct != null], read a
    number. *)
Theorem C10_dpct_defined_implies_d_defined
    (leftDate rightDate : option string) (k : string) (x : Compare.Row) :
  In x (Compare.rows metrics leftDate rightDate) \/
  find (fun r => Compare.key (Compare.spec r) =? k)%string
       (Compare.rows metrics leftDate rightDate) = Some x ->
  notNull (Compare.dpct x) = true ->
  exists v, Compare.d x = Some v.
Proof.
  intros Hx Hp.
  assert (Hin : In x (Compare.rows metrics leftDate rightDate)).
  { destruct Hx as [H|H]; [exact H | now apply find_some in H]. }
  apply In_rows in Hin. destruct Hin as [m [_ ->]].
  rewrite row_dpct in Hp. rewrite row_d. cbv zeta in *.
  destruct (Compare.l _) as [a|]; [|discriminate Hp].
  destruct (Compare.r _) as [b|]; [|discriminate Hp].
  now exists (b - a).
Qed.

(** C5. When the value at either period is undefined, the absolute delta
    and the percent delta of the row are both undefined.  [row] is a total
    function of the store, the two periods and the metric: there is no
    input on which it fails to produce a row. *)
Theorem C5_undefined_value_gives_undefined_deltas
    (k : Compare.MetricSpec) (p1 p2 : option string) :
  Compare.valAt metrics (Compare.key k) p1 = None \/
  Compare.valAt metrics (Compare.key k) p2 = None ->
  Compare.d (Compare.row metrics p1 p2 k) = None /\
  Compare.dpct (Compare.row metrics p1 p2 k) = None.
Proof.
  intros H.
  rewrite row_dpct, row_d. cbv zeta.
  rewrite row_l, row_r.
  destruct (truthy_opt id (Compare.asPct k));
    destruct H as [-> | ->]; cbn;
    try (split; reflexivity);
    match goal with
    | |- context [Compare.valAt ?m ?key ?p] =>
        destruct (Compare.valAt m key p); cbn; split; reflexivity
    end.
Qed.

(** C4. With both values defined, the percent delta of a row is undefined
    when the left value is exactly zero (either zero; and so it is neither
    Infinity nor NaN there), and is [(right - left) / left * 100]
    otherwise, [left] and [right] being the operands of the delta
    arithmetic (the row's [l] and [r]).  A left value of the store that is
    zero gives a zero operand for a ratio metric as well. *)
Theorem C4_percent_delta_of_zero_left
    (k : Compare.MetricSpec) (p1 p2 : option string) (a b : number) :
  Compare.valAt metrics (Compare.key k) p1 = Some a ->
  Compare.valAt metrics (Compare.key k) p2 = Some b ->
  let x := Compare.row metrics p1 p2 k in
  exists left right,
    Compare.l x = Some left /\ Compare.r x = Some right /\
    ((a =? 0) = true -> Compare.dpct x = None) /\
    ((left =? 0) = true -> Compare.dpct x = None) /\
    ((left =? 0) = false -> Compare.dpct x = Some ((right - left) / left * 100)).
Proof.
  intros Ha Hb x. subst x.
  rewrite row_dpct. cbv zeta. rewrite row_l, row_r, Ha, Hb.
  destruct (truthy_opt id (Compare.asPct k)); cbn.
  - exists (a * 100), (b * 100). repeat split.
    + intros Z. now rewrite (mul100_zero _ Z).
    + now intros ->.
    + now intros ->.
  - exists a, b. repeat split.
    + now intros ->.
    + now intros ->.
    + now intros ->.
Qed.

End DeltaCalculator.

Section DeltaCalculatorInstances.

Import JS.
Local Open Scope float_scope.

Lemma C10_witness :
  find (fun r => Compare.key (Compare.spec r) =? "revenue")%string
       (Compare.rows revenueStore fy2022 fy2023)
    = Some (Compare.row revenueStore fy2022 fy2023 revenue_spec) /\
  notNull (Compare.dpct (Compare.row revenueStore fy2022 fy2023 revenue_spec)) = true /\
  exists v, Compare.d (Compare.row revenueStore fy2022 fy2023 revenue_spec) = Some v.
Proof.
  split; [reflexivity|]. split; [reflexivity|].
  apply (C10_dpct_defined_implies_d_defined revenueStore fy2022 fy2023 "revenue").
  - right. reflexivity.
  - reflexivity.
Defined.

Lemma C5_witness :
  Compare.valAt missingStore "revenue" fy2023 = None /\
  Compare.d (Compare.row missingStore fy2022 fy2023 revenue_spec) = None /\
  Compare.dpct (Compare.row missingStore fy2022 fy2023 revenue_spec) = None.
Proof.
  split; [reflexivity|].
  apply (C5_undefined_value_gives_undefined_deltas missingStore revenue_spec fy2022 fy2023).
  right. reflexivity.
Defined.

Lemma C4_witness :
  Compare.valAt zeroStore "revenue" fy2022 = Some 0 /\
  Compare.valAt zeroStore "revenue" fy2023 = Some 50 /\
  exists left right,
    Compare.l (Compare.row zeroStore fy2022 fy2023 revenue_spec) = Some left /\
    Compare.r (Compare.row zeroStore fy2022 fy2023 revenue_spec) = Some right /\
    ((0 =? 0) = true ->
     Compare.dpct (Compare.row zeroStore fy2022 fy2023 revenue_spec) = None) /\
    ((left =? 0) = true ->
     Compare.dpct (Compare.row zeroStore fy2022 fy2023 revenue_spec) = None) /\
    ((left =? 0) = false ->
     Compare.dpct (Compare.row zeroStore fy2022 fy2023 revenue_spec)
       = Some ((right - left) / left * 100)).
Proof.
  split; [reflexivity|]. split; [reflexivity|].
  apply (C4_percent_delta_of_zero_left zeroStore revenue_spec fy2022 fy2023 0 50);
    reflexivity.
Defined.

End DeltaCalculatorInstances.

(* ================================================================= *)
(** ** Orientation of a comparison, and ratio metrics *)

Section Orientation.

Import JS.
Local Open Scope float_scope.

Variable metrics : option Metrics.

(** Swapping the two periods swaps the operands of a row. *)
Lemma row_swap_l (k : Compare.MetricSpec) (p1 p2 : option string) :
  Compare.l (Compare.row metrics p2 p1 k) = Compare.r (Compare.row metrics p1 p2 k).
Proof. now rewrite row_l, row_r. Qed.

Lemma row_swap_r (k : Compare.MetricSpec) (p1 p2 : option string) :
  Compare.r (Compare.row metrics p2 p1 k) = Compare.l (Compare.row metrics p1 p2 k).
Proof. now rewrite row_l, row_r. Qed.

(** C8, as the code has it. When the absolute delta of a metric is
    defined for the periods taken in both orders and is not [NaN], the
    delta from [p1] to [p2] equals the negation of the delta from [p2] to
    [p1] (as numbers, under [===], for which the two zeros are equal).
    A delta that is [NaN] in one order is [NaN] in the other; and the
    delta is not [NaN] when the two operands of the row are finite.
    The percent delta has no such symmetry: for a revenue of 100 and then
    120 it is 20 in one order and not -20 in the other. *)
Theorem C8_absolute_delta_antisymmetric
    (k : Compare.MetricSpec) (p1 p2 : option string) (d12 d21 : number) :
  Compare.d (Compare.row metrics p1 p2 k) = Some d12 ->
  Compare.d (Compare.row metrics p2 p1 k) = Some d21 ->
  (is_nan d12 = false -> (d12 =? - d21) = true) /\
  (is_nan d12 = true -> is_nan d21 = true) /\
  (forall a b,
     Compare.l (Compare.row metrics p1 p2 k) = Some a ->
     Compare.r (Compare.row metrics p1 p2 k) = Some b ->
     is_finite a = true -> is_finite b = true -> is_nan d12 = false) /\
  (exists back,
     Compare.dpct (Compare.row revenueStore fy2022 fy2023 revenue_spec) = Some 20 /\
     Compare.dpct (Compare.row revenueStore fy2023 fy2022 revenue_spec) = Some back /\
     is_nan back = false /\ (20 =? - back) = false).
Proof.
  rewrite !row_d. cbv zeta.
  rewrite (row_swap_l k p1 p2), (row_swap_r k p1 p2).
  destruct (Compare.l _) as [a|]; [|discriminate].
  destruct (Compare.r _) as [b|]; [|discriminate].
  intros E12 E21. injection E12 as <-. injection E21 as <-.
  assert (P : exists back,
     Compare.dpct (Compare.row revenueStore fy2022 fy2023 revenue_spec) = Some 20 /\
     Compare.dpct (Compare.row revenueStore fy2023 fy2022 revenue_spec) = Some back /\
     is_nan back = false /\ (20 =? - back) = false).
  { eexists. split; [reflexivity|]. split; [reflexivity|]. split; reflexivity. }
  destruct (sub_antisym a b) as [E | [N1 N2]].
  - split; [intros _; exact E|]. split; [|split; [|exact P]].
    + intros N. unfold is_nan in N. rewrite eqb_spec in E.
      apply is_nan_spec in N. rewrite N in E. discriminate E.
    + intros a' b' [= <-] [= <-] Fa Fb. now apply sub_finite_not_nan.
  - split; [intros N; rewrite N in N1; discriminate N1|].
    split; [intros _; exact N2|]. split; [|exact P].
    intros a' b' [= <-] [= <-] Fa Fb. now apply sub_finite_not_nan.
Qed.

(** C2, as the code has it. For a ratio metric with both values defined,
    the operands are the stored fractions scaled by 100; the absolute
    delta is their difference, in percentage points; and the percent delta
    is the relative change [(r - l) / l * 100] of the scaled left operand,
    undefined when that operand is zero. *)
Theorem C2_ratio_percent_delta_is_relative
    (k : Compare.MetricSpec) (p1 p2 : option string) (a b : number) :
  Compare.asPct k = Some true ->
  Compare.valAt metrics (Compare.key k) p1 = Some a ->
  Compare.valAt metrics (Compare.key k) p2 = Some b ->
  let x := Compare.row metrics p1 p2 k in
  Compare.l x = Some (a * 100) /\
  Compare.r x = Some (b * 100) /\
  Compare.d x = Some (b * 100 - a * 100) /\
  Compare.dpct x =
    if (a * 100 =? 0) then None
    else Some ((b * 100 - a * 100) / (a * 100) * 100).
Proof.
  intros Hk Ha Hb x. subst x.
  rewrite row_dpct, row_d. cbv zeta.
  rewrite row_l, row_r, Hk, Ha, Hb. cbn.
  repeat split.
Qed.

(** C6. For a ratio metric both values are scaled by 100 before the delta
    arithmetic, so that the absolute delta is a difference of percentages;
    a gross margin that goes from the fraction 0.400 to the fraction 0.425
    has the absolute delta 2.5, which is neither 0.025 nor 6.25. *)
Theorem C6_ratio_delta_in_percentage_points
    (k : Compare.MetricSpec) (p1 p2 : option string) (a b : number) :
  Compare.asPct k = Some true ->
  Compare.valAt metrics (Compare.key k) p1 = Some a ->
  Compare.valAt metrics (Compare.key k) p2 = Some b ->
  let x := Compare.row metrics p1 p2 k in
  Compare.l x = Some (a * 100) /\
  Compare.r x = Some (b * 100) /\
  Compare.d x = Some (b * 100 - a * 100) /\
  (a = 0.400 -> b = 0.425 ->
   Compare.l x = Some 40 /\ Compare.r x = Some 42.5 /\
   Compare.d x = Some 2.5 /\
   Compare.d x <> Some 0.025 /\ Compare.d x <> Some 6.25).
Proof.
  intros Hk Ha Hb x. subst x.
  rewrite row_d. cbv zeta.
  rewrite row_l, row_r, Hk, Ha, Hb. cbn.
  repeat split; subst; try reflexivity;
    now apply Some_eqb_false_neq.
Qed.

End Orientation.

Section OrientationInstances.

Import JS.
Local Open Scope float_scope.

Lemma C8_witness :
  Compare.d (Compare.row revenueStore fy2022 fy2023 revenue_spec) = Some 20 /\
  Compare.d (Compare.row revenueStore fy2023 fy2022 revenue_spec) = Some (-20) /\
  is_nan 20 = false /\
  (20 =? - (-20)) = true.
Proof.
  split; [reflexivity|]. split; [reflexivity|]. split; [reflexivity|].
  apply (C8_absolute_delta_antisymmetric revenueStore revenue_spec fy2022 fy2023);
    reflexivity.
Defined.

(** C8, as the claim states it, fails: a gross margin of 2e306 and then
    3e306 is scaled to Infinity on both sides, so that the absolute delta
    is defined in both orders and is [NaN] in both, and [NaN] equals
    nothing, its own negation included. *)
Lemma C8_counterexample :
  Compare.l (Compare.row gmHugeStore fy2022 fy2023 gm_spec) = Some infinity /\
  Compare.r (Compare.row gmHugeStore fy2022 fy2023 gm_spec) = Some infinity /\
  exists d12 d21,
    Compare.d (Compare.row gmHugeStore fy2022 fy2023 gm_spec) = Some d12 /\
    Compare.d (Compare.row gmHugeStore fy2023 fy2022 gm_spec) = Some d21 /\
    is_nan d12 = true /\ is_nan d21 = true /\
    (d12 =? - d21) = false.
Proof.
  split; [reflexivity|]. split; [reflexivity|].
  exists nan, nan. repeat split.
Qed.

(** The percent delta has no such symmetry: the two orientations divide
    by different bases. *)
Example percent_delta_not_antisymmetric :
  Compare.dpct (Compare.row revenueStore fy2022 fy2023 revenue_spec) = Some 20 /\
  exists back,
    Compare.dpct (Compare.row revenueStore fy2023 fy2022 revenue_spec) = Some back /\
    (20 =? - back) = false.
Proof.
  split; [reflexivity|]. eexists. split; reflexivity.
Qed.

(** C2, as the claim states it, fails: at a gross margin going from 0.400
    to 0.425 the percent delta is the relative change 6.25, not the
    difference 2.5 of the two percentages. *)
Lemma C2_counterexample :
  Compare.l (Compare.row gmUpStore fy2022 fy2023 gm_spec) = Some 40 /\
  Compare.r (Compare.row gmUpStore fy2022 fy2023 gm_spec) = Some 42.5 /\
  Compare.dpct (Compare.row gmUpStore fy2022 fy2023 gm_spec) = Some 6.25 /\
  Compare.dpct (Compare.row gmUpStore fy2022 fy2023 gm_spec) <> Some (42.5 - 40).
Proof.
  repeat split.
  now apply Some_eqb_false_neq.
Qed.

Lemma C2_witness :
  Compare.asPct gm_spec = Some true /\
  Compare.valAt gmUpStore "gm" fy2022 = Some 0.400 /\
  Compare.valAt gmUpStore "gm" fy2023 = Some 0.425 /\
  Compare.l (Compare.row gmUpStore fy2022 fy2023 gm_spec) = Some (0.400 * 100) /\
  Compare.r (Compare.row gmUpStore fy2022 fy2023 gm_spec) = Some (0.425 * 100) /\
  Compare.d (Compare.row gmUpStore fy2022 fy2023 gm_spec)
    = Some (0.425 * 100 - 0.400 * 100) /\
  Compare.dpct (Compare.row gmUpStore fy2022 fy2023 gm_spec) =
    if (0.400 * 100 =? 0) then None
    else Some ((0.425 * 100 - 0.400 * 100) / (0.400 * 100) * 100).
Proof.
  split; [reflexivity|]. split; [reflexivity|]. split; [reflexivity|].
  apply (C2_ratio_percent_delta_is_relative gmUpStore gm_spec fy2022 fy2023);
    reflexivity.
Defined.

Lemma C6_witness :
  Compare.asPct gm_spec = Some true /\
  Compare.valAt gmUpStore "gm" fy2022 = Some 0.400 /\
  Compare.valAt gmUpStore "gm" fy2023 = Some 0.425 /\
  Compare.d (Compare.row gmUpStore fy2022 fy2023 gm_spec) = Some 2.5 /\
  Compare.d (Compare.row gmUpStore fy2022 fy2023 gm_spec) <> Some 0.025 /\
  Compare.d (Compare.row gmUpStore fy2022 fy2023 gm_spec) <> Some 6.25.
Proof.
  split; [reflexivity|]. split; [reflexivity|]. split; [reflexivity|].
  apply (C6_ratio_delta_in_percentage_points gmUpStore gm_spec fy2022 fy2023
           0.400 0.425); reflexivity.
Defined.

End OrientationInstances.

(* ================================================================= *)
(** ** The narrative *)

Section Narrative.

Import JS.
Local Open Scope float_scope.

Variable Number_toString : number -> string.
Variable locale : Locale.

Lemma pushIf_app (out : list string) (x : option Compare.Row)
    (sentence : Compare.Row -> option string) :
  Compare.pushIf out x sentence = (out ++ pushed x sentence)%list.
Proof.
  unfold Compare.pushIf, pushed, push.
  destruct x as [x|]; [destruct (sentence x)|]; now rewrite ?app_nil_r.
Qed.

(** [bullets] visits the metrics in the order [NARRATIVE_ORDER]. *)
Lemma bullets_narrativeIn (ready : bool) (rows : list Compare.Row) :
  Compare.bullets Number_toString locale ready rows =
  if ready
  then Compare.narrativeIn Number_toString locale Compare.NARRATIVE_ORDER rows
  else [].
Proof.
  destruct ready; [|reflexivity].
  unfold Compare.bullets. cbn [negb]. cbv zeta.
  rewrite !pushIf_app.
  unfold Compare.narrativeIn, Compare.NARRATIVE_ORDER. cbn [flat_map].
  rewrite app_nil_r, <- !app_assoc. reflexivity.
Qed.

(** [get] on the rows of the table finds the row built for the key. *)
Lemma get_rows (metrics : option Metrics) (p1 p2 : option string) (k : Compare.MetricSpec) :
  In k Compare.TABLE_KEYS ->
  find (fun r => Compare.key (Compare.spec r) =? Compare.key k)%string
       (Compare.rows metrics p1 p2)
    = Some (Compare.row metrics p1 p2 k).
Proof.
  intros H. repeat (destruct H as [<- | H]; [reflexivity|]). destruct H.
Qed.


End Narrative.

Section NarrativeOrder.

Import JS.
Local Open Scope float_scope.

(** The order of the narrative holds the keys of the catalog, with the
    two income lines moved before the two balance-sheet lines. *)
Lemma NARRATIVE_ORDER_permutes_catalog :
  Permutation Compare.NARRATIVE_ORDER Compare.catalogOrder.
Proof.
  unfold Compare.NARRATIVE_ORDER, Compare.catalogOrder. cbn [map Compare.TABLE_KEYS Compare.key].
  do 3 apply perm_skip.
  apply (Permutation_app_tail ["equity"]
           (l := ["operating_income"; "net_income"; "assets"; "liabilities"])
           (l' := ["assets"; "liabilities"; "operating_income"; "net_income"])).
  apply (Permutation_app_comm ["operating_income"; "net_income"] ["assets"; "liabilities"]).
Qed.

(** C1, as the code has it. For every row sequence the narrative is made
    of the sentences of the metrics taken in one fixed order, whatever the
    values: revenue, gross margin, diluted EPS, operating income, net
    income, assets, liabilities, equity.  That order holds the keys of the
    metric catalog, but it is not the order of the catalog. *)
Theorem C1_narrative_in_fixed_order
    (Number_toString : number -> string) (locale : Locale)
    (ready : bool) (rows : list Compare.Row) :
  Compare.bullets Number_toString locale ready rows =
    (if ready
     then Compare.narrativeIn Number_toString locale Compare.NARRATIVE_ORDER rows
     else []) /\
  Permutation Compare.NARRATIVE_ORDER Compare.catalogOrder /\
  Compare.NARRATIVE_ORDER <> Compare.catalogOrder.
Proof.
  split; [apply bullets_narrativeIn|].
  split; [apply NARRATIVE_ORDER_permutes_catalog|].
  discriminate.
Qed.

(** What the page prints for [orderStore]. *)
Example orderStore_bullets (Number_toString : number -> string) :
  Compare.bullets Number_toString en_US true (Compare.rows orderStore fy2022 fy2023)
    = [ "Operating income up 20.0% (+2)."; "Assets grew 10.0%." ].
Proof. reflexivity. Qed.

Example orderStore_catalog_order (Number_toString : number -> string) :
  Compare.narrativeIn Number_toString en_US Compare.catalogOrder
                      (Compare.rows orderStore fy2022 fy2023)
    = [ "Assets grew 10.0%."; "Operating income up 20.0% (+2)." ].
Proof. reflexivity. Qed.

(** C1, as the claim states it, fails: with assets and operating income
    both reported, the sentence on operating income comes before the
    sentence on assets, while the catalog lists assets first. *)
Lemma C1_counterexample :
  ~ exists Number_toString : number -> string,
      Compare.bullets Number_toString en_US true (Compare.rows orderStore fy2022 fy2023)
      = Compare.narrativeIn Number_toString en_US Compare.catalogOrder
                            (Compare.rows orderStore fy2022 fy2023).
Proof.
  intros [ts H].
  rewrite orderStore_bullets, orderStore_catalog_order in H.
  discriminate H.
Qed.

End NarrativeOrder.

(* ================================================================= *)
(** ** The two scenarios of the narrative *)

Section Scenarios.

Import JS.
Local Open Scope float_scope.

Variable Number_toString : number -> string.
Variable metrics : option Metrics.
Variables p1 p2 : option string.

(** C7. With revenue 100 at the left period and 120 at the right one, the
    absolute delta is 20, the percent delta is 20, and the narrative opens
    with the sentence "Revenue increased 20.0% (+20), from 100 to 120.",
    in every locale of the modelled family. *)
Theorem C7_revenue_scenario (locale : Locale) :
  Compare.valAt metrics "revenue" p1 = Some 100 ->
  Compare.valAt metrics "revenue" p2 = Some 120 ->
  let x := Compare.row metrics p1 p2 revenue_spec in
  find (fun r => Compare.key (Compare.spec r) =? "revenue")%string
       (Compare.rows metrics p1 p2) = Some x /\
  Compare.d x = Some 20 /\
  Compare.dpct x = Some 20 /\
  Compare.bullet_revenue Number_toString locale x
    = Some "Revenue increased 20.0% (+20), from 100 to 120." /\
  exists rest,
    Compare.bullets Number_toString locale true (Compare.rows metrics p1 p2)
      = "Revenue increased 20.0% (+20), from 100 to 120." :: rest.
Proof.
  intros Ha Hb x.
  assert (Hx : x = {| Compare.spec := revenue_spec;
                      Compare.l := Some 100; Compare.r := Some 120;
                      Compare.d := Some 20; Compare.dpct := Some 20 |}).
  { subst x. unfold Compare.row. cbn [Compare.key Compare.asPct revenue_spec].
    rewrite Ha, Hb. reflexivity. }
  assert (Hf : find (fun r => Compare.key (Compare.spec r) =? "revenue")%string
                    (Compare.rows metrics p1 p2) = Some x).
  { apply (get_rows metrics p1 p2 revenue_spec). now left. }
  assert (Hs : Compare.bullet_revenue Number_toString locale x
               = Some "Revenue increased 20.0% (+20), from 100 to 120.").
  { rewrite Hx. reflexivity. }
  split; [exact Hf|].
  split; [now rewrite Hx|]. split; [now rewrite Hx|]. split; [exact Hs|].
  rewrite bullets_narrativeIn.
  unfold Compare.narrativeIn, Compare.NARRATIVE_ORDER. cbn [flat_map].
  rewrite Hf.
  change (Compare.sentenceFor Number_toString locale "revenue")
    with (Compare.bullet_revenue Number_toString locale).
  rewrite Hs. eexists. reflexivity.
Qed.


End Scenarios.

Section ScenarioInstances.

Import JS.
Local Open Scope float_scope.

Lemma C7_witness :
  Compare.valAt revenueStore "revenue" fy2022 = Some 100 /\
  Compare.valAt revenueStore "revenue" fy2023 = Some 120 /\
  Compare.d (Compare.row revenueStore fy2022 fy2023 revenue_spec) = Some 20 /\
  Compare.dpct (Compare.row revenueStore fy2022 fy2023 revenue_spec) = Some 20 /\
  forall Number_toString,
    Compare.bullets Number_toString en_US true (Compare.rows revenueStore fy2022 fy2023)
      = [ "Revenue increased 20.0% (+20), from 100 to 120." ].
Proof.
  split; [reflexivity|]. split; [reflexivity|].
  split; [|split].
  - apply (C7_revenue_scenario (fun _ => "") revenueStore fy2022 fy2023 en_US);
      reflexivity.
  - apply (C7_revenue_scenario (fun _ => "") revenueStore fy2022 fy2023 en_US);
      reflexivity.
  - reflexivity.
Defined.




End ScenarioInstances.

(* ================================================================= *)
(** ** The derived margins *)

Section Margins.

Import JS.
Local Open Scope float_scope.

(** The guard of the three margins. *)
Lemma guard_policy (num den : option number) :
  RatioPolicy num den
    (match num, den with
     | Some n, Some v => if truthy_number v then Some (n / v) else None
     | _, _ => None
     end).
Proof.
  unfold RatioPolicy, truthy_number. repeat split.
  - now intros ->.
  - intros ->. now destruct num.
  - intros v -> Z. rewrite Z. now destruct num.
  - intros v -> N. rewrite N, andb_false_r. now destruct num.
  - intros n v -> -> Z N. now rewrite Z, N.
  - intros n v x -> -> Hq Fn Fv.
    destruct (v =? 0) eqn:Z; [discriminate Hq|].
    destruct (is_nan v); [discriminate Hq|].
    cbn in Hq. injection Hq as <-.
    now apply div_finite_not_nan.
Qed.

(** C9, as the code has it. Each margin is undefined when its denominator
    (revenue) is missing, is a zero or is [NaN], or when its numerator is
    missing; otherwise it is the binary64 quotient of the two, and that
    quotient is not [NaN] when both are finite.  The three are total
    functions of the store and the period: nothing is thrown. *)
Theorem C9_margin_policy (metrics : option Metrics) (selectedDate : option string) :
  RatioPolicy (Ticker.gp metrics selectedDate) (Ticker.rev metrics selectedDate)
              (Ticker.gmRatio metrics selectedDate) /\
  RatioPolicy (Ticker.oi metrics selectedDate) (Ticker.rev metrics selectedDate)
              (Ticker.opMargin metrics selectedDate) /\
  RatioPolicy (Ticker.ni metrics selectedDate) (Ticker.rev metrics selectedDate)
              (Ticker.netMargin metrics selectedDate).
Proof.
  split; [|split]; apply guard_policy.
Qed.

(** The margins of [marginStore]. *)
Example marginStore_margins :
  Ticker.gmRatio marginStore fy2023 = Some 0.4 /\
  Ticker.opMargin marginStore fy2023 = Some 0.25 /\
  Ticker.netMargin marginStore fy2023 = Some 0.2.
Proof. repeat split. Qed.

Lemma C9_witness :
  Ticker.gp marginStore fy2023 = Some 80 /\
  Ticker.rev marginStore fy2023 = Some 200 /\
  Ticker.gmRatio marginStore fy2023 = Some (80 / 200) /\
  is_nan (80 / 200) = false.
Proof.
  destruct (C9_margin_policy marginStore fy2023) as [[_ [_ [_ [_ [Hq Hn]]]]] _].
  split; [reflexivity|]. split; [reflexivity|]. split.
  - apply (Hq 80 200); reflexivity.
  - apply (Hn 80 200 (80 / 200)); reflexivity.
Defined.

(** C9, as the claim states it, fails: a gross profit of 1e308 over a
    revenue of 0.1, both finite and the revenue not zero, has a quotient
    beyond the largest binary64 number, and the gross margin handed to the
    caller is Infinity. *)
Lemma C9_counterexample :
  Ticker.gp overflowStore fy2023 = Some 1e308 /\
  Ticker.rev overflowStore fy2023 = Some 0.1 /\
  Ticker.gmRatio overflowStore fy2023 = Some infinity.
Proof. repeat split. Qed.

End Margins.

(* ================================================================= *)
(** ** Further scenarios of the comparison page *)

Section FurtherScenarios.

Import JS.
Local Open Scope float_scope.

(** The table has one row per entry of the catalog, in its order. *)
Lemma rows_follow_catalog (metrics : option Metrics) (p1 p2 : option string) :
  List.length (Compare.rows metrics p1 p2) = 8%nat /\
  map (fun x => Compare.key (Compare.spec x)) (Compare.rows metrics p1 p2)
    = Compare.catalogOrder.
Proof. split; reflexivity. Qed.

(** Revenue going from 0 to 50: the delta is 50, the percent delta is
    undefined and the narrative has no sentence on revenue. *)
Example zero_revenue_scenario (Number_toString : number -> string) :
  Compare.d (Compare.row zeroStore fy2022 fy2023 revenue_spec) = Some 50 /\
  Compare.dpct (Compare.row zeroStore fy2022 fy2023 revenue_spec) = None /\
  Compare.bullets Number_toString en_US true (Compare.rows zeroStore fy2022 fy2023) = [].
Proof. repeat split. Qed.

(** A period with no point in the series: the value on that side is
    undefined, its cell shows a dash and no sentence is produced. *)
Example missing_period_scenario (Number_toString : number -> string) :
  Compare.l (Compare.row missingStore fy2022 fy2023 revenue_spec) = Some 100 /\
  Compare.r (Compare.row missingStore fy2022 fy2023 revenue_spec) = None /\
  Compare.cell_r en_US (Compare.row missingStore fy2022 fy2023 revenue_spec) = "—" /\
  Compare.bullets Number_toString en_US true (Compare.rows missingStore fy2022 fy2023) = [].
Proof. repeat split. Qed.

(** The page is not ready, and prints nothing, while a filing is not
    resolved to its period. *)
Example summary_not_ready (Number_toString : number -> string) (metrics : option Metrics) :
  Compare.summary Number_toString en_US "0000320193-22-000108" "0000320193-23-000106"
                  None metrics = [].
Proof. reflexivity. Qed.

End FurtherScenarios.

(* ================================================================= *)
(** ** Percent encoding and query strings *)

Section TextFacts.

Import JS Text.

Lemma allChars_app (p : ascii -> bool) (s t : string) :
  allChars p (s ++ t) = allChars p s && allChars p t.
Proof.
  induction s as [|c s IH]; cbn; [reflexivity|].
  now rewrite IH, andb_assoc.
Qed.

Lemma allChars_weaken (p q : ascii -> bool) (s : string) :
  (forall c, p c = true -> q c = true) ->
  allChars p s = true -> allChars q s = true.
Proof.
  intros H. induction s as [|c s IH]; cbn; [reflexivity|].
  intros [Hc Hs]%andb_prop. now rewrite (H c Hc), IH.
Qed.

Ltac by_byte c :=
  destruct c as [[] [] [] [] [] [] [] []]; try reflexivity; try discriminate.

Lemma uriUnreserved_plain (c : ascii) :
  uriUnreserved c = true -> plain c = true /\ Ascii.eqb c "%" = false.
Proof. by_byte c; intros _; split; reflexivity. Qed.

Lemma formSafe_plain (c : ascii) :
  formSafe c = true -> plain c = true /\ Ascii.eqb c "%" = false.
Proof. by_byte c; intros _; split; reflexivity. Qed.

Lemma percentByte_plain (c : ascii) : allChars plain (percentByte c) = true.
Proof. by_byte c. Qed.

Lemma percentByte_plusToSpace (c : ascii) : plusToSpace (percentByte c) = percentByte c.
Proof. by_byte c. Qed.

Lemma percentDecode_percentByte (c : ascii) (s : string) :
  percentDecode (percentByte c ++ s) = String c (percentDecode s).
Proof. by_byte c. Qed.

Lemma percentDecode_other (c : ascii) (s : string) :
  Ascii.eqb c "%" = false -> percentDecode (String c s) = String c (percentDecode s).
Proof. intros H. cbn. now rewrite H. Qed.

Lemma plusToSpace_app (s t : string) :
  plusToSpace (s ++ t) = plusToSpace s ++ plusToSpace t.
Proof. induction s as [|c s IH]; cbn; [reflexivity|]. now rewrite IH. Qed.

Lemma plusToSpace_plain (s : string) :
  allChars plain s = true -> plusToSpace s = s.
Proof.
  induction s as [|c s IH]; cbn; [reflexivity|].
  intros [Hc Hs]%andb_prop. rewrite (IH Hs).
  destruct (Ascii.eqb_spec c "+") as [->|]; [discriminate Hc | reflexivity].
Qed.

Lemma encodeURIComponent_plain (s : string) :
  allChars plain (encodeURIComponent s) = true.
Proof.
  induction s as [|c s IH]; cbn; [reflexivity|].
  rewrite allChars_app, IH, andb_true_r.
  destruct (uriUnreserved c) eqn:U.
  - cbn. now rewrite (proj1 (uriUnreserved_plain c U)).
  - apply percentByte_plain.
Qed.

Lemma formEncode_quiet (s : string) :
  allChars quiet (formEncode s) = true.
Proof.
  induction s as [|c s IH]; cbn; [reflexivity|].
  rewrite allChars_app, IH, andb_true_r.
  destruct (formSafe c) eqn:U.
  - cbn. destruct (formSafe_plain c U) as [P _]. revert P. by_byte c.
  - destruct (Ascii.eqb c " "); [reflexivity|].
    apply (allChars_weaken plain); [|apply percentByte_plain].
    intros x. by_byte x.
Qed.

(** Decoding undoes either encoding. *)
Lemma decode_encodeURIComponent (s : string) :
  percentDecode (plusToSpace (encodeURIComponent s)) = s.
Proof.
  rewrite plusToSpace_plain by apply encodeURIComponent_plain.
  induction s as [|c s IH]; cbn [encodeURIComponent]; [reflexivity|].
  destruct (uriUnreserved c) eqn:U.
  - cbn [append]. rewrite percentDecode_other by apply (uriUnreserved_plain c U).
    now rewrite IH.
  - now rewrite percentDecode_percentByte, IH.
Qed.

Lemma decode_formEncode (s : string) :
  percentDecode (plusToSpace (formEncode s)) = s.
Proof.
  induction s as [|c s IH]; cbn [formEncode]; [reflexivity|].
  rewrite plusToSpace_app.
  destruct (formSafe c) eqn:U.
  - destruct (formSafe_plain c U) as [P E].
    rewrite (plusToSpace_plain (String c "")) by (cbn; now rewrite P).
    cbn [append]. rewrite percentDecode_other by exact E. now rewrite IH.
  - destruct (Ascii.eqb_spec c " ") as [->|N].
    + cbn. now rewrite IH.
    + rewrite percentByte_plusToSpace, percentDecode_percentByte. now rewrite IH.
Qed.

(** Cutting a string at a separator it holds once. *)
Lemma splitOn_nonempty (sep : ascii) (s : string) : splitOn sep s <> [].
Proof.
  induction s as [|c s IH]; cbn; [discriminate|].
  destruct (Ascii.eqb c sep); [discriminate|].
  destruct (splitOn sep s); [contradiction | discriminate].
Qed.

Lemma splitOn_piece (sep : ascii) (p : string) :
  allChars (isNot sep) p = true -> splitOn sep p = [p].
Proof.
  induction p as [|c p IH]; cbn; [reflexivity|].
  unfold isNot at 1. intros [Hc Hp]%andb_prop.
  apply negb_true_iff in Hc. now rewrite Hc, (IH Hp).
Qed.

Lemma splitOn_app (sep : ascii) (p rest : string) :
  allChars (isNot sep) p = true ->
  splitOn sep (p ++ String sep rest) = p :: splitOn sep rest.
Proof.
  induction p as [|c p IH]; cbn.
  - intros _. now rewrite Ascii.eqb_refl.
  - unfold isNot at 1. intros [Hc Hp]%andb_prop.
    apply negb_true_iff in Hc. now rewrite Hc, (IH Hp).
Qed.

Lemma cutAtEquals_app (n v : string) :
  allChars (isNot "=") n = true -> cutAtEquals (n ++ String "=" v) = (n, v).
Proof.
  induction n as [|c n IH]; cbn; [reflexivity|].
  unfold isNot at 1. intros [Hc Hn]%andb_prop.
  apply negb_true_iff in Hc. now rewrite Hc, (IH Hn).
Qed.

Lemma quiet_isNot (sep : ascii) (s : string) :
  charIn sep "&=#?" = true ->
  allChars quiet s = true -> allChars (isNot sep) s = true.
Proof.
  intros Hs. apply allChars_weaken. intros c. unfold quiet, isNot.
  destruct (Ascii.eqb_spec c sep) as [->|]; [|reflexivity].
  now rewrite Hs.
Qed.

Lemma plain_quiet (s : string) :
  allChars plain s = true -> allChars quiet s = true.
Proof. apply allChars_weaken. intros c. by_byte c. Qed.

Lemma upTo_all (sep : ascii) (s : string) :
  allChars (isNot sep) s = true -> upTo sep s = s.
Proof.
  induction s as [|c s IH]; cbn; [reflexivity|].
  unfold isNot at 1. intros [Hc Hs]%andb_prop.
  apply negb_true_iff in Hc. now rewrite Hc, (IH Hs).
Qed.

Lemma from_app (sep : ascii) (p t : string) :
  allChars (isNot sep) p = true -> from sep (p ++ String sep t) = String sep t.
Proof.
  induction p as [|c p IH]; cbn.
  - intros _. now rewrite Ascii.eqb_refl.
  - unfold isNot at 1. intros [Hc Hp]%andb_prop.
    apply negb_true_iff in Hc. now rewrite Hc, (IH Hp).
Qed.

(** The parser reads back what the serializer wrote. *)
Lemma pair_piece (n v : string) :
  let piece := formEncode n ++ "=" ++ formEncode v in
  allChars (isNot "&") piece = true /\
  (piece =? "") = false /\
  (let (n', v') := cutAtEquals piece in
   (percentDecode (plusToSpace n'), percentDecode (plusToSpace v'))) = (n, v).
Proof.
  cbv zeta. split; [|split].
  - rewrite allChars_app. cbn [append allChars].
    rewrite !(quiet_isNot "&") by (reflexivity || apply formEncode_quiet).
    reflexivity.
  - destruct (formEncode n); reflexivity.
  - change (formEncode n ++ "=" ++ formEncode v)
      with (formEncode n ++ String "=" (formEncode v)).
    rewrite cutAtEquals_app by (apply (quiet_isNot "="); [reflexivity|apply formEncode_quiet]).
    now rewrite !decode_formEncode.
Qed.

Lemma append_assoc (a b c : string) : (a ++ b) ++ c = a ++ (b ++ c).
Proof. induction a as [|x a IH]; cbn; [reflexivity|]. now rewrite IH. Qed.

Lemma append_nil_r (a : string) : a ++ "" = a.
Proof. induction a as [|x a IH]; cbn; [reflexivity|]. now rewrite IH. Qed.

Lemma serialize_cons (n v : string) (rest : URLSearchParams) :
  serialize ((n, v) :: rest) =
  (formEncode n ++ "=" ++ formEncode v)
    ++ match rest with
       | [] => ""
       | _ :: _ => String "&" (serialize rest)
       end.
Proof.
  cbn [serialize]. rewrite !append_assoc. reflexivity.
Qed.

Lemma parseForm_serialize (sp : URLSearchParams) :
  parseForm (serialize sp) = sp.
Proof.
  induction sp as [|[n v] rest IH]; [reflexivity|].
  destruct (pair_piece n v) as [Hamp [Hne Hdec]].
  rewrite serialize_cons. unfold parseForm in *.
  destruct rest as [|q rest].
  - rewrite append_nil_r, splitOn_piece by exact Hamp.
    cbn [filter]. rewrite Hne. cbn [negb map]. now rewrite Hdec.
  - rewrite splitOn_app by exact Hamp.
    cbn [filter]. rewrite Hne. cbn [negb map]. now rewrite Hdec, IH.
Qed.

Lemma serialize_quiet (sp : URLSearchParams) :
  allChars (isNot "#") (serialize sp) = true.
Proof.
  induction sp as [|[n v] rest IH]; [reflexivity|].
  rewrite serialize_cons, !allChars_app.
  rewrite (quiet_isNot "#" (formEncode n)), (quiet_isNot "#" (formEncode v))
    by (reflexivity || apply formEncode_quiet).
  destruct rest; [reflexivity|]. cbn [allChars]. now rewrite IH.
Qed.

(** Navigating to ["?" + sp] and parsing the search of the location gives
    the pairs of [sp] back. *)
Lemma reparse (sp : URLSearchParams) :
  parseSearch (searchOf ("?" ++ serialize sp)) = sp.
Proof.
  unfold searchOf. rewrite upTo_all.
  - cbn. apply parseForm_serialize.
  - cbn. apply serialize_quiet.
Qed.

End TextFacts.

(* ================================================================= *)
(** ** The compare slots of the ticker page *)

Section Slots.

Import JS Text.

Lemma get_delete_same (sp : URLSearchParams) (n : string) :
  get (delete sp n) n = None.
Proof.
  unfold get, delete. induction sp as [|p sp IH]; cbn; [reflexivity|].
  destruct (fst p =? n) eqn:E; cbn; [exact IH|]. now rewrite E.
Qed.

Lemma get_delete_other (sp : URLSearchParams) (n m : string) :
  n <> m -> get (delete sp n) m = get sp m.
Proof.
  intros N. unfold get, delete. induction sp as [|p sp IH]; cbn; [reflexivity|].
  destruct (String.eqb_spec (fst p) n) as [E|E]; cbn.
  - destruct (String.eqb_spec (fst p) m) as [E'|E']; [congruence | exact IH].
  - destruct (fst p =? m); [reflexivity | exact IH].
Qed.

Lemma get_set_same (sp : URLSearchParams) (n v : string) :
  get (set sp n v) n = Some v.
Proof.
  unfold get. induction sp as [|p sp IH]; cbn.
  - now rewrite String.eqb_refl.
  - destruct (fst p =? n) eqn:E; cbn; [now rewrite String.eqb_refl|].
    now rewrite E.
Qed.

Lemma get_set_other (sp : URLSearchParams) (n m v : string) :
  n <> m -> get (set sp n v) m = get sp m.
Proof.
  intros N. induction sp as [|p sp IH]; cbn.
  - unfold get; cbn. now destruct (String.eqb_spec n m).
  - destruct (String.eqb_spec (fst p) n) as [E|E].
    + unfold get at 2. cbn. 
      destruct (String.eqb_spec (fst p) m) as [E'|E']; [congruence|].
      unfold get at 1. cbn. destruct (String.eqb_spec n m); [contradiction|].
      apply (get_delete_other sp n m N).
    + unfold get in *. cbn. destruct (fst p =? m); [reflexivity| exact IH].
Qed.

(** What [setSlot] leaves in the search parameters. *)
Lemma setSlot_eq (sp : URLSearchParams) (slot : string) (accession : option string) :
  TickerPage.setSlot sp slot accession =
  match accession with
  | Some a => if truthy_string a then set sp slot a else delete sp slot
  | None => delete sp slot
  end.
Proof. unfold TickerPage.setSlot. apply reparse. Qed.

(** What a slot reads after [setSlot]. *)
Lemma slotOf_setSlot_same (sp : URLSearchParams) (slot accession : string) :
  accession <> "" ->
  TickerPage.slotOf (TickerPage.setSlot sp slot (Some accession)) slot = accession.
Proof.
  intros Ha. rewrite setSlot_eq. unfold truthy_string, TickerPage.slotOf.
  destruct (String.eqb_spec accession "") as [|_]; [contradiction|]. cbn [negb].
  now rewrite get_set_same.
Qed.

Lemma slotOf_setSlot_other
    (sp : URLSearchParams) (slot other : string) (accession : option string) :
  other <> slot ->
  TickerPage.slotOf (TickerPage.setSlot sp slot accession) other
    = TickerPage.slotOf sp other.
Proof.
  intros Ho. rewrite setSlot_eq. unfold TickerPage.slotOf.
  destruct accession as [a|]; [destruct (truthy_string a)|];
    [rewrite get_set_other by congruence | rewrite get_delete_other by congruence
     | rewrite get_delete_other by congruence]; reflexivity.
Qed.

(** X1. Choosing a filing for a slot. After [setSlot(slot, accession)] with
    an accession that is not empty, the slot reads that accession, and
    every other slot reads what it read before. *)
Theorem setSlot_sets
    (sp : URLSearchParams) (slot other accession : string) :
  accession <> "" -> other <> slot ->
  TickerPage.slotOf (TickerPage.setSlot sp slot (Some accession)) slot = accession /\
  TickerPage.slotOf (TickerPage.setSlot sp slot (Some accession)) other
    = TickerPage.slotOf sp other.
Proof.
  intros Ha Ho. split.
  - now apply slotOf_setSlot_same.
  - now apply slotOf_setSlot_other.
Qed.

(** X2. Clearing a slot. After [setSlot(slot)], and after [setSlot(slot, "")],
    the slot reads the empty string, the Compare button is disabled when
    the slot is A or B, and every other slot reads what it read before. *)
Theorem setSlot_clears (sp : URLSearchParams) (slot : string) :
  TickerPage.slotOf (TickerPage.clearSlot sp slot) slot = "" /\
  TickerPage.slotOf (TickerPage.setSlot sp slot (Some "")) slot = "" /\
  (forall other, other <> slot ->
     TickerPage.slotOf (TickerPage.clearSlot sp slot) other = TickerPage.slotOf sp other) /\
  (slot = "a" \/ slot = "b" ->
     TickerPage.compareEnabled (TickerPage.clearSlot sp slot) = false).
Proof.
  unfold TickerPage.clearSlot. rewrite !setSlot_eq. cbn [truthy_string String.eqb negb].
  unfold TickerPage.slotOf. rewrite get_delete_same.
  repeat split.
  - intros other Ho. rewrite get_delete_other by congruence. reflexivity.
  - unfold TickerPage.compareEnabled, TickerPage.slotA, TickerPage.slotB, TickerPage.slotOf.
    intros [-> | ->]; rewrite get_delete_same; cbn; [reflexivity|].
    now rewrite orb_true_r.
Qed.

(** X3. The buttons A and B toggle. A click on the button of a filing puts
    its accession in the slot, unless the slot holds it already, in which
    case the slot is emptied; the other slots are left as they are.  Two
    clicks in a row leave the slot as it was when it held that filing,
    and empty otherwise. *)
Theorem clickSlot_toggles (sp : URLSearchParams) (slot : string) (f : Filing) :
  let once := TickerPage.clickSlot sp slot f in
  let twice := TickerPage.clickSlot once slot f in
  TickerPage.slotOf once slot
    = (if TickerPage.slotOf sp slot =? accession f then "" else accession f) /\
  TickerPage.slotOf twice slot
    = (if TickerPage.slotOf sp slot =? accession f then accession f else "") /\
  (forall other, other <> slot ->
     TickerPage.slotOf once other = TickerPage.slotOf sp other).
Proof.
  cbv zeta.
  assert (H1 : forall sp',
    TickerPage.slotOf (TickerPage.clickSlot sp' slot f) slot
      = (if TickerPage.slotOf sp' slot =? accession f then "" else accession f)).
  { intros sp'. unfold TickerPage.clickSlot. rewrite setSlot_eq.
    destruct (TickerPage.slotOf sp' slot =? accession f) eqn:E.
    - cbn. unfold TickerPage.slotOf. now rewrite get_delete_same.
    - unfold truthy_string.
      destruct (String.eqb_spec (accession f) "") as [->|N]; cbn [negb].
      + unfold TickerPage.slotOf. now rewrite get_delete_same.
      + unfold TickerPage.slotOf. now rewrite get_set_same. }
  split; [apply H1|]. split.
  - rewrite H1, H1.
    destruct (String.eqb_spec (TickerPage.slotOf sp slot) (accession f)) as [E|E].
    + destruct (String.eqb_spec "" (accession f)) as [<-|]; reflexivity.
    + now rewrite String.eqb_refl.
  - intros other Ho. unfold TickerPage.clickSlot. rewrite setSlot_eq.
    unfold TickerPage.slotOf.
    destruct (truthy_string _);
      [rewrite get_set_other by congruence | rewrite get_delete_other by congruence];
      reflexivity.
Qed.

(** What the compare page parses out of the path of the button Compare. *)
Lemma comparePath_parsed (symbol : string) (sp : URLSearchParams) :
  parseSearch (searchOf (TickerPage.comparePath symbol sp))
  = [("symbol", symbol); ("left", TickerPage.slotA sp); ("right", TickerPage.slotB sp)].
Proof.
  set (a := TickerPage.slotA sp). set (b := TickerPage.slotB sp).
  set (es := encodeURIComponent symbol).
  set (ea := encodeURIComponent a). set (eb := encodeURIComponent b).
  assert (Qs : allChars quiet es = true) by apply plain_quiet, encodeURIComponent_plain.
  assert (Qa : allChars quiet ea = true) by apply plain_quiet, encodeURIComponent_plain.
  assert (Qb : allChars quiet eb = true) by apply plain_quiet, encodeURIComponent_plain.
  assert (E : TickerPage.comparePath symbol sp
              = "/compare" ++ String "?"
                  (("symbol=" ++ es) ++ String "&"
                     (("left=" ++ ea) ++ String "&" ("right=" ++ eb)))).
  { reflexivity. }
  rewrite E. unfold searchOf. rewrite upTo_all.
  2:{ repeat (rewrite allChars_app
              || cbn [allChars append isNot Ascii.eqb Bool.eqb negb andb]).
      rewrite (quiet_isNot "#" es), (quiet_isNot "#" ea), (quiet_isNot "#" eb)
        by (reflexivity || assumption).
      reflexivity. }
  rewrite from_app by reflexivity.
  cbn [parseSearch Ascii.eqb Bool.eqb].
  unfold parseForm.
  rewrite splitOn_app.
  2:{ rewrite allChars_app. now rewrite (quiet_isNot "&" es) by (reflexivity || assumption). }
  rewrite splitOn_app.
  2:{ rewrite allChars_app. now rewrite (quiet_isNot "&" ea) by (reflexivity || assumption). }
  rewrite splitOn_piece.
  2:{ rewrite allChars_app. now rewrite (quiet_isNot "&" eb) by (reflexivity || assumption). }
  cbn [filter append String.eqb negb Ascii.eqb Bool.eqb map cutAtEquals
       plusToSpace percentDecode].
  subst es ea eb. now rewrite !decode_encodeURIComponent.
Qed.

(** X4. From the button Compare to the compare page. The path the button
    navigates to is read back by the compare page as the symbol of the
    ticker page and the accessions of its two slots, whatever characters
    they hold; so the page prints the summary of those two filings. *)
Theorem comparePath_read_back
    (Number_toString : number -> string) (locale : Locale)
    (symbol : string) (sp : URLSearchParams)
    (filings : option (list Filing)) (metrics : option Metrics) :
  let search := searchOf (TickerPage.comparePath symbol sp) in
  let params := parseSearch search in
  ComparePage.symbolOf params = symbol /\
  ComparePage.leftAccOf params = TickerPage.slotA sp /\
  ComparePage.rightAccOf params = TickerPage.slotB sp /\
  ComparePage.pageSummary Number_toString locale search filings metrics
    = Compare.summary Number_toString locale (TickerPage.slotA sp) (TickerPage.slotB sp)
                      filings metrics.
Proof.
  cbv zeta. unfold ComparePage.pageSummary.
  rewrite comparePath_parsed. repeat split.
Qed.

End Slots.

(* ================================================================= *)
(** ** The links to EDGAR *)

Section EdgarLinks.

Import JS Text.

Variable Number_toString : number -> string.

Lemma removeDashes_filter (s : string) :
  list_ascii_of_string (removeDashes s)
  = filter (isNot "-") (list_ascii_of_string s).
Proof.
  induction s as [|c s IH]; cbn; [reflexivity|].
  unfold isNot at 1. destruct (Ascii.eqb c "-"); cbn; now rewrite IH.
Qed.

Lemma removeDashes_no_dash (s : string) :
  allChars (isNot "-") (removeDashes s) = true.
Proof.
  induction s as [|c s IH]; cbn; [reflexivity|].
  destruct (Ascii.eqb c "-") eqn:E; [exact IH|].
  cbn. unfold isNot at 1. now rewrite E, IH.
Qed.

Lemma removeDashes_id (s : string) :
  allChars (isNot "-") s = true -> removeDashes s = s.
Proof.
  induction s as [|c s IH]; cbn; [reflexivity|].
  unfold isNot at 1. intros [Hc Hs]%andb_prop.
  apply negb_true_iff in Hc. now rewrite Hc, (IH Hs).
Qed.

(** X5. The link of the filing page. For every accession the link is the
    index page under the CIK 320193, written without its leading zeros,
    in the directory named by the accession without its dashes: the
    other characters of the accession are kept, in their order, and an
    accession without a dash is used as it is. *)
Theorem filing_link_shape (accession : string) :
  let dir := removeDashes accession in
  FilingPage.edgarLinkForAccession Number_toString accession None
    = "https://www.sec.gov/Archives/edgar/data/320193/" ++ dir ++ "/" ++ dir ++ "-index.htm" /\
  list_ascii_of_string dir = filter (isNot "-") (list_ascii_of_string accession) /\
  allChars (isNot "-") dir = true /\
  removeDashes dir = dir.
Proof.
  cbv zeta. split; [reflexivity|]. split; [apply removeDashes_filter|].
  split; [apply removeDashes_no_dash|].
  apply removeDashes_id, removeDashes_no_dash.
Qed.

(** X6. The link of the ticker page. For a symbol that is AAPL in any
    letter case the link is the one the filing page makes for the
    accession; for every other symbol it is the full-text search of EDGAR
    for the accession, percent-encoded so that it decodes to the accession
    and holds none of the characters that end a URL fragment or a query
    parameter. *)
Theorem ticker_link_cases (symbol accession : string) :
  (toUpperCase symbol = "AAPL" ->
   TickerPage.edgarLinkForAccession Number_toString symbol accession
     = FilingPage.edgarLinkForAccession Number_toString accession None) /\
  (toUpperCase symbol <> "AAPL" ->
   exists q,
     TickerPage.edgarLinkForAccession Number_toString symbol accession
       = "https://www.sec.gov/edgar/search/#/q=" ++ q /\
     percentDecode q = accession /\
     allChars plain q = true).
Proof.
  unfold TickerPage.edgarLinkForAccession, TickerPage.cikMap. split.
  - intros ->. reflexivity.
  - intros N. destruct (String.eqb_spec (toUpperCase symbol) "AAPL") as [E|_];
      [contradiction|]. cbn [truthy_opt negb].
    exists (encodeURIComponent accession). split; [reflexivity|]. split.
    + rewrite <- (plusToSpace_plain (encodeURIComponent accession))
        by apply encodeURIComponent_plain.
      apply decode_encodeURIComponent.
    + apply encodeURIComponent_plain.
Qed.

End EdgarLinks.

Lemma ticker_link_cases_witness :
  Text.toUpperCase "aapl" = "AAPL" /\
  Text.toUpperCase "msft" <> "AAPL" /\
  TickerPage.edgarLinkForAccession (fun _ => "") "aapl" "0000320193-22-000108"
    = "https://www.sec.gov/Archives/edgar/data/320193/000032019322000108/000032019322000108-index.htm" /\
  exists q,
    TickerPage.edgarLinkForAccession (fun _ => "") "msft" "0000789019-23-000014"
      = "https://www.sec.gov/edgar/search/#/q=" ++ q /\
    Text.percentDecode q = "0000789019-23-000014" /\
    allChars plain q = true.
Proof.
  split; [reflexivity|]. split; [discriminate|]. split.
  - rewrite (proj1 (ticker_link_cases (fun _ => "") "aapl" "0000320193-22-000108"));
      reflexivity.
  - apply (proj2 (ticker_link_cases (fun _ => "") "msft" "0000789019-23-000014")).
    discriminate.
Defined.

(* ================================================================= *)
(** ** The list of 10-K filings *)

Section FilingList.

Import JS Text.

Lemma hd_error_filter {A} (p : A -> bool) (xs : list A) :
  hd_error (filter p xs) = find p xs.
Proof.
  induction xs as [|x xs IH]; cbn; [reflexivity|].
  destruct (p x); [reflexivity | exact IH].
Qed.

(** X7. The filings listed. At most five filings are listed; each is a 10-K
    of the filings received; the filings received whose form is 10-K are,
    in the order received, the filings listed followed by the hidden ones;
    when a filing is hidden, exactly five are listed; and the count note is
    shown exactly when some 10-K filing is hidden. So the filings listed
    are the first five 10-K filings received, or all of them when there
    are at most five. *)
Theorem listed_filings (filings : option (list Filing)) :
  let received := match filings with Some fs => fs | None => [] end in
  List.length (TickerPage.listed filings) <= 5 /\
  (forall f, In f (TickerPage.listed filings) -> In f received /\ form f = "10-K") /\
  exists hidden,
    filter (fun f => form f =? "10-K") received
      = (TickerPage.listed filings ++ hidden)%list /\
    (hidden <> [] -> List.length (TickerPage.listed filings) = 5) /\
    (TickerPage.showsCount filings = true <-> hidden <> []).
Proof.
  cbv zeta. unfold TickerPage.listed, TickerPage.showsCount, TickerPage.LIST_SIZE,
    TickerPage.tenKAll.
  set (all := filter (fun f => form f =? "10-K")
                     (match filings with Some fs => fs | None => [] end)).
  split; [apply firstn_le_length|]. split.
  - intros f Hf.
    assert (Hf' : In f all).
    { rewrite <- (firstn_skipn 5 all). apply in_or_app. now left. }
    clear Hf. rename Hf' into Hf. subst all.
    apply filter_In in Hf. destruct Hf as [Hin Hform].
    split; [exact Hin|]. now apply String.eqb_eq.
  - assert (Hidden : skipn 5 all <> [] <-> 5 < List.length all).
    { split.
      + intros N. destruct (Nat.lt_ge_cases 5 (List.length all)) as [L|G]; [exact L|].
        elim N. apply skipn_all2. exact G.
      + intros L E. apply (f_equal (@List.length Filing)) in E.
        rewrite length_skipn in E. cbn in E. lia. }
    exists (skipn 5 all). split; [symmetry; apply firstn_skipn|]. split.
    + intros N. apply Hidden in N. rewrite length_firstn. lia.
    + rewrite Nat.ltb_lt. symmetry. exact Hidden.
Qed.

(** X8. The default filing. The filing shown before any is chosen, and
    the one whose summary is fetched, is the first 10-K of the filings
    received; there is none exactly when no filing received is a 10-K. *)
Theorem default_filing_is_first_10K (filings : option (list Filing)) :
  let received := match filings with Some fs => fs | None => [] end in
  TickerPage.defaultFiling filings = find (fun f => form f =? "10-K") received /\
  TickerPage.latestAccession filings
    = option_map accession (TickerPage.defaultFiling filings) /\
  TickerPage.defaultFiling filings = hd_error (TickerPage.listed filings) /\
  (TickerPage.defaultFiling filings = None <->
   forall f, In f received -> form f <> "10-K").
Proof.
  cbv zeta. unfold TickerPage.defaultFiling, TickerPage.latestAccession, TickerPage.listed.
  unfold TickerPage.tenKAll, TickerPage.LIST_SIZE.
  set (received := match filings with Some fs => fs | None => [] end).
  split; [apply hd_error_filter|]. split; [reflexivity|]. split.
  - now destruct (filter _ received).
  - rewrite hd_error_filter. split.
    + intros H f Hf E. apply (find_none _ _ H) in Hf. rewrite E in Hf. discriminate.
    + intros H. destruct (find _ _) as [f|] eqn:E; [|reflexivity].
      apply find_some in E. destruct E as [Hin Hf].
      elim (H f Hin). now apply String.eqb_eq.
Qed.

End FilingList.

(* ================================================================= *)
(** ** Looking a value up in the store *)

Section Lookup.

Import JS.

(** [find] returns the first element that passes the test. *)
Lemma find_first {A} (p : A -> bool) (before after : list A) (x : A) :
  (forall y, In y before -> p y = false) -> p x = true ->
  find p (before ++ x :: after)%list = Some x.
Proof.
  intros Hb Hx. induction before as [|y before IH]; cbn.
  - now rewrite Hx.
  - rewrite (Hb y) by now left. apply IH. intros z Hz. apply Hb. now right.
Qed.

(** X9. The two pages read the store alike: [valAt] of the compare page
    and [valAt] of the ticker page give the same value for every store,
    key and date. *)
Theorem valAt_pages_agree (metrics : option Metrics) (key : string) (d : option string) :
  Compare.valAt metrics key d = Ticker.valAt metrics key d.
Proof.
  unfold Compare.valAt, Ticker.valAt, Ticker.allSeries.
  destruct d as [d|]; [|reflexivity].
  destruct (negb (truthy_string d)); [reflexivity|].
  destruct metrics as [data|]; [|reflexivity].
  now destruct (find _ (series data)).
Qed.

(** X10. A value that [valAt] returns is in the store: the date is given and
    not empty, the store is loaded, and the value is that of a point with
    this date in a series with this key. *)
Theorem valAt_sound (metrics : option Metrics) (key : string) (d : option string)
    (v : number) :
  Compare.valAt metrics key d = Some v ->
  exists dd data s pt,
    d = Some dd /\ dd <> "" /\ metrics = Some data /\
    In s (series data) /\ series_key s = key /\
    In pt (points s) /\ date pt = dd /\ value pt = v.
Proof.
  unfold Compare.valAt. destruct d as [dd|]; [|discriminate].
  unfold truthy_string. destruct (String.eqb_spec dd "") as [|Hd]; [discriminate|].
  cbn [negb]. destruct metrics as [data|]; [|discriminate].
  destruct (find _ (series data)) as [s|] eqn:Es; [|discriminate].
  destruct (find _ (points s)) as [pt|] eqn:Ep; [|discriminate].
  cbn. intros [= <-].
  apply find_some in Es, Ep. destruct Es as [Hs Ks], Ep as [Hp Kp].
  apply String.eqb_eq in Ks, Kp.
  exists dd, data, s, pt. repeat split; assumption.
Qed.

(** X11. The first match wins. When [s] is the first series of the store
    with the key and [pt] is the first of its points with the date, which
    is not empty, [valAt] returns the value of [pt]; series and points
    that come later, with the same key or the same date, are not read. *)
Theorem valAt_first_match
    (data : Metrics) (s : Series) (pt : SeriesPoint)
    (ss1 ss2 : list Series) (ps1 ps2 : list SeriesPoint) :
  series data = (ss1 ++ s :: ss2)%list ->
  (forall s', In s' ss1 -> series_key s' <> series_key s) ->
  points s = (ps1 ++ pt :: ps2)%list ->
  (forall q, In q ps1 -> date q <> date pt) ->
  date pt <> "" ->
  Compare.valAt (Some data) (series_key s) (Some (date pt)) = Some (value pt).
Proof.
  intros Hs Hs1 Hp Hp1 Hd. unfold Compare.valAt, truthy_string.
  destruct (String.eqb_spec (date pt) "") as [|_]; [contradiction|]. cbn [negb].
  rewrite Hs, find_first.
  - rewrite Hp, find_first; [reflexivity| |apply String.eqb_refl].
    intros q Hq. apply String.eqb_neq. now apply Hp1.
  - intros s' H'. apply String.eqb_neq. now apply Hs1.
  - apply String.eqb_refl.
Qed.

(** X12. With no filing chosen, the ticker page takes the date of the last
    point of the revenue series: when that series, the first with the key
    ["revenue"], ends with the point [pt] whose date is not empty, the
    selected date is the date of [pt] and the revenue read at it is
    defined; it is the value of [pt] when no earlier point has its date. *)
Theorem selected_date_falls_back_to_latest_revenue
    (data : Metrics) (s : Series) (earlier : list SeriesPoint) (pt : SeriesPoint) :
  find (fun x => series_key x =? "revenue") (series data) = Some s ->
  points s = (earlier ++ [pt])%list ->
  date pt <> "" ->
  Ticker.selectedDateOf (Some data) None = Some (date pt) /\
  (exists v, Ticker.rev (Some data) (Ticker.selectedDateOf (Some data) None) = Some v) /\
  ((forall q, In q earlier -> date q <> date pt) ->
   Ticker.rev (Some data) (Ticker.selectedDateOf (Some data) None) = Some (value pt)).
Proof.
  intros Hs Hp Hd.
  assert (E : Ticker.selectedDateOf (Some data) None = Some (date pt)).
  { unfold Ticker.selectedDateOf, Ticker.allSeries. rewrite Hs, Hp.
    rewrite length_app. cbn [List.length].
    replace (List.length earlier + 1 - 1) with (List.length earlier + 0) by lia.
    now rewrite nth_error_app2, Nat.add_comm, Nat.add_sub by lia. }
  rewrite E. split; [reflexivity|].
  unfold Ticker.rev, Ticker.valAt, Ticker.allSeries, truthy_string.
  destruct (String.eqb_spec (date pt) "") as [|_]; [contradiction|]. cbn [negb].
  rewrite Hs, Hp. split.
  - destruct (find _ (earlier ++ [pt])%list) as [q|] eqn:F; [now exists (value q)|].
    assert (F' := find_none _ _ F pt). cbv beta in F'.
    rewrite String.eqb_refl in F'.
    discriminate F'. apply in_or_app. right. now left.
  - intros Hq. rewrite find_first; [reflexivity| |apply String.eqb_refl].
    intros q Hin. apply String.eqb_neq. now apply Hq.
Qed.

(** X13. The snapshot chart. Its bars are, in this order, those of revenue,
    gross profit, operating income and net income that have a value at the
    date, each with its label and that value: a metric with a value always
    gets its bar, and no other bar is drawn. So there are at most four
    bars; the chart is empty, and the page says that there is no data,
    exactly when none of the four has a value, as for a date that is
    undefined or empty. *)
Theorem snapshot_bars (metrics : option Metrics) (d : option string) :
  let bar (label key : string) : list (string * number) :=
    match Ticker.valAt metrics key d with
    | Some v => [(label, v)]
    | None => []
    end in
  TickerPage.snapshot metrics d
    = (bar "Revenue" "revenue" ++ bar "Gross Profit" "gross_profit" ++
       bar "Operating Income" "operating_income" ++
       bar "Net Income" "net_income")%list /\
  List.length (TickerPage.snapshot metrics d) <= 4 /\
  (TickerPage.snapshot metrics d = [] <->
   Ticker.valAt metrics "revenue" d = None /\
   Ticker.valAt metrics "gross_profit" d = None /\
   Ticker.valAt metrics "operating_income" d = None /\
   Ticker.valAt metrics "net_income" d = None) /\
  (forall k v, In (k, v) (TickerPage.snapshot metrics d) <->
     (k = "Revenue" /\ Ticker.valAt metrics "revenue" d = Some v) \/
     (k = "Gross Profit" /\ Ticker.valAt metrics "gross_profit" d = Some v) \/
     (k = "Operating Income" /\ Ticker.valAt metrics "operating_income" d = Some v) \/
     (k = "Net Income" /\ Ticker.valAt metrics "net_income" d = Some v)) /\
  (d = None \/ d = Some "" -> TickerPage.snapshot metrics d = []).
Proof.
  cbv zeta. unfold TickerPage.snapshot. split; [|split; [|split; [|split]]].
  - destruct (Ticker.valAt metrics "revenue" d),
             (Ticker.valAt metrics "gross_profit" d),
             (Ticker.valAt metrics "operating_income" d),
             (Ticker.valAt metrics "net_income" d); reflexivity.
  - destruct (Ticker.valAt metrics "revenue" d),
             (Ticker.valAt metrics "gross_profit" d),
             (Ticker.valAt metrics "operating_income" d),
             (Ticker.valAt metrics "net_income" d); cbn; lia.
  - destruct (Ticker.valAt metrics "revenue" d),
             (Ticker.valAt metrics "gross_profit" d),
             (Ticker.valAt metrics "operating_income" d),
             (Ticker.valAt metrics "net_income" d); cbn;
      (split; intros H;
       [ first [ discriminate H | repeat split; reflexivity ]
       | first [ reflexivity
               | destruct H as (H1 & H2 & H3 & H4);
                 first [ discriminate H1 | discriminate H2
                       | discriminate H3 | discriminate H4 ] ] ]).
  - intros k v.
    destruct (Ticker.valAt metrics "revenue" d),
             (Ticker.valAt metrics "gross_profit" d),
             (Ticker.valAt metrics "operating_income" d),
             (Ticker.valAt metrics "net_income" d); cbn;
      (split;
       [ intros H;
         repeat (destruct H as [[= <- <-] | H]; [tauto|]); destruct H
       | intros [[-> E] | [[-> E] | [[-> E] | [-> E]]]];
         first [ discriminate E | injection E as <-; tauto ] ]).
  - intros [-> | ->]; reflexivity.
Qed.

End Lookup.

(* ================================================================= *)
(** ** More on binary64: differences and quotients that are zero *)

Section ZeroFacts.

Local Open Scope float_scope.

Lemma zero_cases (w : float) (s : bool) :
  Prim2SF w = S754_zero s -> w = if s then neg_zero else 0.
Proof.
  intros E. apply Prim2SF_inj. rewrite E. now destruct s.
Qed.

(** A finite number minus itself is [+0]. *)
Lemma sub_diag_finite (a : float) : is_finite a = true -> a - a = 0.
Proof.
  intros H. apply Prim2SF_inj. rewrite sub_spec.
  change (Prim2SF 0) with (S754_zero false).
  destruct (is_finite_spec a H) as [[s E]|[s [m [e E]]]]; rewrite E.
  - now destruct s.
  - unfold SF64sub, SFsub. now rewrite Z.sub_diag.
Qed.

(** Zero over a finite number that is not zero, times 100, is a zero. *)
Lemma zero_quotient (a : float) :
  is_finite a = true -> (a =? 0) = false ->
  0 / a * 100 = 0 \/ 0 / a * 100 = neg_zero.
Proof.
  intros H Z.
  destruct (is_finite_spec a H) as [[s E]|[s [m [e E]]]].
  - rewrite (zero_eqb _ _ E) in Z. discriminate.
  - assert (E1 : Prim2SF (0 / a) = S754_zero s).
    { rewrite div_spec, E. change (Prim2SF 0) with (S754_zero false). reflexivity. }
    assert (E2 : Prim2SF (0 / a * 100) = S754_zero (xorb s false)).
    { rewrite mul_spec, E1. reflexivity. }
    apply zero_cases in E2. destruct (xorb s false); [now right | now left].
Qed.

End ZeroFacts.

(* ================================================================= *)
(** ** More on the rows and the narrative *)

Section MoreRows.

Import JS.
Local Open Scope float_scope.

Variable metrics : option Metrics.

Lemma spec_row (p1 p2 : option string) (k : Compare.MetricSpec) :
  Compare.spec (Compare.row metrics p1 p2 k) = k.
Proof. reflexivity. Qed.

(** The deltas of a row that misses a value. *)
Lemma row_deltas_undefined (k : Compare.MetricSpec) (p1 p2 : option string) :
  Compare.valAt metrics (Compare.key k) p1 = None \/
  Compare.valAt metrics (Compare.key k) p2 = None ->
  Compare.d (Compare.row metrics p1 p2 k) = None /\
  Compare.dpct (Compare.row metrics p1 p2 k) = None.
Proof.
  intros H. rewrite row_dpct, row_d. cbv zeta. rewrite row_l, row_r.
  destruct (truthy_opt id (Compare.asPct k));
    destruct H as [-> | ->]; cbn;
    try (split; reflexivity);
    match goal with
    | |- context [Compare.valAt ?m ?key ?p] =>
        destruct (Compare.valAt m key p); cbn; split; reflexivity
    end.
Qed.

(** X14. When the percent delta is defined. In every row, it is defined
    exactly when the absolute delta is defined and the left operand is
    not a zero. *)
Theorem dpct_defined_iff (p1 p2 : option string) (k : Compare.MetricSpec) :
  let x := Compare.row metrics p1 p2 k in
  notNull (Compare.dpct x) =
  notNull (Compare.d x)
  && match Compare.l x with
     | Some a => negb (a =? 0)
     | None => false
     end.
Proof.
  cbv zeta. rewrite row_dpct, row_d. cbv zeta.
  destruct (Compare.l _) as [a|]; [|reflexivity].
  destruct (Compare.r _) as [b|]; [|reflexivity].
  cbn. now destruct (a =? 0).
Qed.

(** X15. A filing compared with itself. With the same period on both sides,
    a row whose operand is a finite number has the absolute delta [+0];
    its percent delta is undefined when the operand is a zero, and is a
    zero otherwise, so that the narrative takes the first verb of each
    pair. *)
Theorem self_comparison_has_zero_deltas
    (p : option string) (k : Compare.MetricSpec) (a : number) :
  Compare.l (Compare.row metrics p p k) = Some a ->
  is_finite a = true ->
  let x := Compare.row metrics p p k in
  Compare.r x = Some a /\
  Compare.d x = Some 0 /\
  ((a =? 0) = true -> Compare.dpct x = None) /\
  ((a =? 0) = false ->
   exists w, Compare.dpct x = Some w /\ (w =? 0) = true /\ ge0 w = true).
Proof.
  intros Hl Hf x. subst x.
  assert (Hr : Compare.r (Compare.row metrics p p k) = Some a).
  { rewrite row_r. rewrite row_l in Hl. exact Hl. }
  rewrite row_dpct, row_d. cbv zeta. rewrite Hl, Hr. cbn.
  rewrite (sub_diag_finite a Hf).
  split; [reflexivity|]. split; [reflexivity|]. split.
  - now intros ->.
  - intros Z. rewrite Z. eexists. split; [reflexivity|].
    destruct (zero_quotient a Hf Z) as [-> | ->]; split; reflexivity.
Qed.

End MoreRows.

Section MoreNarrative.

Import JS.

Variable Number_toString : number -> string.
Variable locale : Locale.
Variable metrics : option Metrics.
Variables p1 p2 : option string.

(** When a sentence is made: the guard of each [if] of [bullets]. *)
Lemma sentence_guard (k : Compare.MetricSpec) :
  In k Compare.TABLE_KEYS ->
  notNull (Compare.sentenceFor Number_toString locale (Compare.key k) (Compare.row metrics p1 p2 k))
  = hasSentence (Compare.row metrics p1 p2 k).
Proof.
  intros H. unfold hasSentence. rewrite spec_row.
  repeat (destruct H as [<- | H];
          [ cbv [Compare.sentenceFor Compare.key String.eqb Ascii.eqb Bool.eqb andb];
            unfold Compare.bullet_revenue, Compare.bullet_gm, Compare.bullet_eps,
                   Compare.bullet_ast, Compare.bullet_li, Compare.bullet_oi,
                   Compare.bullet_ni, Compare.bullet_eq;
            match goal with
            | |- context [match ?o with Some _ => _ | None => _ end] =>
                destruct o; reflexivity
            end
          | ]).
  destruct H.
Qed.

(** What the metric of a key adds to the narrative of the table. *)
Lemma pushed_spec (k : Compare.MetricSpec) :
  In k Compare.TABLE_KEYS ->
  pushed (getRow metrics p1 p2 (Compare.key k))
         (Compare.sentenceFor Number_toString locale (Compare.key k))
  = pushed (Some (Compare.row metrics p1 p2 k))
           (Compare.sentenceFor Number_toString locale (Compare.key k)) /\
  List.length (pushed (Some (Compare.row metrics p1 p2 k))
                 (Compare.sentenceFor Number_toString locale (Compare.key k)))
  = if hasSentence (Compare.row metrics p1 p2 k) then 1 else 0.
Proof.
  intros H. unfold getRow. rewrite (get_rows metrics p1 p2 k H). split; [reflexivity|].
  rewrite <- (sentence_guard k H). unfold pushed.
  now destruct (Compare.sentenceFor _ _ _ _).
Qed.

Lemma narrativeIn_pushed (order : list string) (rs : list Compare.Row) :
  Compare.narrativeIn Number_toString locale order rs
  = flat_map (fun k =>
       pushed (find (fun r => Compare.key (Compare.spec r) =? k)%string rs)
              (Compare.sentenceFor Number_toString locale k)) order.
Proof. reflexivity. Qed.

(** X16. One sentence per row with a delta. The narrative of the table has
    as many sentences as the table has rows whose delta is defined (the
    absolute delta for the gross margin, the percent delta for the other
    metrics), hence at most eight; and none when the page is not ready. *)
Theorem narrative_has_one_sentence_per_delta (ready : bool) :
  List.length (Compare.bullets Number_toString locale ready (Compare.rows metrics p1 p2))
    = (if ready then List.length (filter hasSentence (Compare.rows metrics p1 p2)) else 0) /\
  List.length (Compare.bullets Number_toString locale ready (Compare.rows metrics p1 p2)) <= 8.
Proof.
  assert (E : List.length (Compare.bullets Number_toString locale ready (Compare.rows metrics p1 p2))
              = if ready then List.length (filter hasSentence (Compare.rows metrics p1 p2)) else 0).
  { rewrite bullets_narrativeIn. destruct ready; [|reflexivity].
    rewrite narrativeIn_pushed.
    unfold Compare.NARRATIVE_ORDER. cbn [flat_map].
    rewrite !length_app. cbn [List.length].
    unfold Compare.rows, Compare.TABLE_KEYS. cbn [map filter].
    repeat match goal with
    | |- context [List.length (pushed (find ?f ?rs) (Compare.sentenceFor _ _ ?key))] =>
        let k := constr:(nth 0 (filter (fun k => Compare.key k =? key)%string
                                   Compare.TABLE_KEYS) revenue_spec) in
        let k := eval cbv in k in
        let H := fresh in
        assert (H : In k Compare.TABLE_KEYS) by (cbn; tauto);
        let P := constr:(pushed_spec k H) in
        change (List.length (pushed (find f rs) (Compare.sentenceFor Number_toString locale key)))
          with (List.length (pushed (getRow metrics p1 p2 (Compare.key k))
                    (Compare.sentenceFor Number_toString locale (Compare.key k))));
        rewrite (proj1 P), (proj2 P); clear H
    end.
    repeat match goal with
    | |- context [hasSentence ?x] => destruct (hasSentence x)
    end; reflexivity. }
  split; [exact E|]. rewrite E. destruct ready; [|lia].
  etransitivity; [apply filter_length_le|]. reflexivity.
Qed.

End MoreNarrative.

Section MoreNarrative2.

Import JS.

Variable Number_toString : number -> string.
Variable locale : Locale.
Variable metrics : option Metrics.

(** X17. A metric without a value at one of the periods loses its sentence,
    and only its sentence: the narrative is the one over the order of the
    narrative without the key of that metric. *)
Theorem missing_value_drops_only_its_sentence
    (p1 p2 : option string) (k : Compare.MetricSpec) :
  In k Compare.TABLE_KEYS ->
  Compare.valAt metrics (Compare.key k) p1 = None \/
  Compare.valAt metrics (Compare.key k) p2 = None ->
  Compare.bullets Number_toString locale true (Compare.rows metrics p1 p2)
  = Compare.narrativeIn Number_toString locale
      (filter (fun n => negb (n =? Compare.key k)) Compare.NARRATIVE_ORDER)
      (Compare.rows metrics p1 p2).
Proof.
  intros Hk Hv.
  assert (P : pushed (getRow metrics p1 p2 (Compare.key k))
                     (Compare.sentenceFor Number_toString locale (Compare.key k)) = []).
  { destruct (pushed_spec Number_toString locale metrics p1 p2 k Hk) as [E L].
    rewrite E. unfold hasSentence in L. rewrite spec_row in L.
    destruct (row_deltas_undefined metrics k p1 p2 Hv) as [Hd Hp].
    rewrite Hd, Hp in L. unfold pushed in *.
    destruct (Compare.sentenceFor _ _ _ _); [|reflexivity].
    cbn in L. destruct (Compare.key k =? "gm"); discriminate L. }
  rewrite bullets_narrativeIn, !narrativeIn_pushed.
  unfold getRow in P.
  repeat (destruct Hk as [<- | Hk];
          [ cbn [Compare.key] in P;
            match goal with
            | |- context [filter ?f Compare.NARRATIVE_ORDER] =>
                let order := eval cbv in (filter f Compare.NARRATIVE_ORDER) in
                change (filter f Compare.NARRATIVE_ORDER) with order
            end;
            unfold Compare.NARRATIVE_ORDER;
            cbn [flat_map]; rewrite P; reflexivity
          | ]).
  destruct Hk.
Qed.

(** X18. The chart and the table agree. For the key of every metric tab the
    chart is drawn without error; when the page is ready its two bars are
    the left and the right operand of the row of the table for that key,
    under the two period ends; when it is not, there is no bar.  The tabs
    are the metrics of the table. *)
Theorem chart_agrees_with_table
    (p1 p2 : option string) (ready : bool) (k : Compare.MetricSpec) :
  In k ComparePage.METRICS ->
  ComparePage.chartData metrics p1 p2 ready (Compare.key k)
  = Some (if ready
          then [ {| ComparePage.chart_name := p1;
                    ComparePage.chart_value := Compare.l (Compare.row metrics p1 p2 k) |};
                 {| ComparePage.chart_name := p2;
                    ComparePage.chart_value := Compare.r (Compare.row metrics p1 p2 k) |} ]
          else []) /\
  In k Compare.TABLE_KEYS.
Proof.
  intros Hk. split; [|exact Hk].
  destruct ready; [|reflexivity].
  repeat (destruct Hk as [<- | Hk]; [reflexivity|]). destruct Hk.
Qed.

(** X19. The summary needs both filings. A sentence is printed only when
    the two accessions of the query are not empty and each is that of a
    filing of the list with a period end; the sentence is then one of the
    narrative of the table for the two period ends. *)
Theorem summary_needs_resolved_filings
    (leftAcc rightAcc : string) (filings : option (list Filing)) (s : string) :
  In s (Compare.summary Number_toString locale leftAcc rightAcc filings metrics) ->
  leftAcc <> "" /\ rightAcc <> "" /\
  exists fs fl fr,
    filings = Some fs /\
    In fl fs /\ accession fl = leftAcc /\ periodEnd fl <> "" /\
    In fr fs /\ accession fr = rightAcc /\ periodEnd fr <> "" /\
    In s (Compare.bullets Number_toString locale true
            (Compare.rows metrics (Some (periodEnd fl)) (Some (periodEnd fr)))).
Proof.
  unfold Compare.summary, Compare.ready, Compare.periodOf, truthy_string.
  destruct (String.eqb_spec leftAcc "") as [|Hl]; [intros []|].
  destruct (String.eqb_spec rightAcc "") as [|Hr]; [intros []|].
  destruct filings as [fs|]; [|intros []].
  destruct (find (fun f => accession f =? leftAcc) fs) as [fl|] eqn:El; [|intros []].
  destruct (find (fun f => accession f =? rightAcc) fs) as [fr|] eqn:Er;
    [|cbn; rewrite andb_false_r; intros []].
  cbn [option_map truthy_opt negb andb].
  destruct (String.eqb_spec (periodEnd fl) "") as [|Pl]; [intros []|].
  destruct (String.eqb_spec (periodEnd fr) "") as [|Pr]; [intros []|].
  cbn [negb andb]. intros Hs.
  apply find_some in El, Er. destruct El as [Il Al], Er as [Ir Ar].
  apply String.eqb_eq in Al, Ar.
  split; [exact Hl|]. split; [exact Hr|].
  exists fs, fl, fr. repeat split; assumption.
Qed.

End MoreNarrative2.

Section SelfComparison.

Import JS.
Local Open Scope float_scope.

(** X20. The sentence on revenue of a filing compared with itself. For a
    revenue that is finite and not zero, the sentence reads "increased
    0.0% (+0)" between the two renderings of that revenue: a delta of
    zero takes the verb of an increase and the plus sign. *)
Theorem self_comparison_revenue_sentence
    (Number_toString : number -> string) (locale : Locale)
    (metrics : option Metrics) (p : option string) (a : number) :
  Compare.valAt metrics "revenue" p = Some a ->
  is_finite a = true -> (a =? 0) = false ->
  Compare.bullet_revenue Number_toString locale (Compare.row metrics p p revenue_spec)
  = Some ("Revenue increased 0.0% (+0), from "
          ++ Compare.fmt locale (Some a) (Some 0%nat) ++ " to "
          ++ Compare.fmt locale (Some a) (Some 0%nat) ++ ".").
Proof.
  intros Ha Hf Hz.
  assert (Hx : Compare.row metrics p p revenue_spec
               = {| Compare.spec := revenue_spec;
                    Compare.l := Some a; Compare.r := Some a;
                    Compare.d := Some 0; Compare.dpct := Some (0 / a * 100) |}).
  { unfold Compare.row. cbn [Compare.key Compare.asPct revenue_spec].
    rewrite Ha. cbn [truthy_opt]. unfold Compare.pctDelta.
    now rewrite Hz, (sub_diag_finite a Hf). }
  rewrite Hx. unfold Compare.bullet_revenue.
  cbn [Compare.dpct Compare.d Compare.l Compare.r].
  set (F := Compare.fmt locale (Some a) (Some 0%nat)). clearbody F.
  destruct (zero_quotient a Hf Hz) as [-> | ->]; reflexivity.
Qed.

End SelfComparison.

Section MoreInstances.

Import JS Text.
Local Open Scope float_scope.

Lemma self_comparison_revenue_sentence_witness :
  Compare.valAt revenueStore "revenue" fy2022 = Some 100 /\
  is_finite 100 = true /\ (100 =? 0) = false /\
  Compare.bullet_revenue (fun _ => "") en_US
      (Compare.row revenueStore fy2022 fy2022 revenue_spec)
    = Some "Revenue increased 0.0% (+0), from 100 to 100.".
Proof.
  split; [reflexivity|]. split; [reflexivity|]. split; [reflexivity|].
  rewrite (self_comparison_revenue_sentence (fun _ => "") en_US
             revenueStore fy2022 100); reflexivity.
Defined.

Lemma self_comparison_has_zero_deltas_witness :
  Compare.l (Compare.row revenueStore fy2022 fy2022 revenue_spec) = Some 100 /\
  is_finite 100 = true /\
  Compare.d (Compare.row revenueStore fy2022 fy2022 revenue_spec) = Some 0.
Proof.
  split; [reflexivity|]. split; [reflexivity|].
  apply (self_comparison_has_zero_deltas revenueStore fy2022 revenue_spec 100);
    reflexivity.
Defined.

Lemma setSlot_sets_witness :
  "0000320193-23-000106" <> "" /\ "b" <> "a" /\
  TickerPage.slotOf
    (TickerPage.setSlot [("b", "0000320193-22-000108")] "a"
                        (Some "0000320193-23-000106")) "a"
    = "0000320193-23-000106" /\
  TickerPage.slotOf
    (TickerPage.setSlot [("b", "0000320193-22-000108")] "a"
                        (Some "0000320193-23-000106")) "b"
    = TickerPage.slotOf [("b", "0000320193-22-000108")] "b".
Proof.
  split; [discriminate|]. split; [discriminate|].
  apply (setSlot_sets [("b", "0000320193-22-000108")] "a" "b" "0000320193-23-000106");
    discriminate.
Defined.

Lemma valAt_sound_witness :
  Compare.valAt revenueStore "revenue" fy2022 = Some 100 /\
  exists dd data s pt,
    fy2022 = Some dd /\ dd <> "" /\ revenueStore = Some data /\
    In s (series data) /\ series_key s = "revenue" /\
    In pt (points s) /\ date pt = dd /\ value pt = 100.
Proof.
  split; [reflexivity|].
  apply (valAt_sound revenueStore "revenue" fy2022 100). reflexivity.
Defined.

Lemma valAt_first_match_witness :
  Compare.valAt duplicateStore "revenue" fy2022 = Some 100.
Proof.
  apply (valAt_first_match
           {| series := [ twoYears "revenue" 100 120; twoYears "revenue" 1 2 ] |}
           (twoYears "revenue" 100 120)
           {| date := "2022-09-24"; value := 100 |}
           [] [ twoYears "revenue" 1 2 ]
           [] [ {| date := "2023-09-30"; value := 120 |} ]).
  - reflexivity.
  - intros s' [].
  - reflexivity.
  - intros q [].
  - discriminate.
Defined.

Lemma selected_date_falls_back_witness :
  Ticker.selectedDateOf revenueStore None = Some "2023-09-30" /\
  Ticker.rev revenueStore (Ticker.selectedDateOf revenueStore None) = Some 120.
Proof.
  destruct (selected_date_falls_back_to_latest_revenue
              {| series := [ twoYears "revenue" 100 120 ] |}
              (twoYears "revenue" 100 120)
              [ {| date := "2022-09-24"; value := 100 |} ]
              {| date := "2023-09-30"; value := 120 |}
              eq_refl eq_refl) as [E [_ V]].
  - discriminate.
  - split; [exact E|]. apply V.
    intros q [<- | []]. discriminate.
Defined.

Lemma missing_value_drops_only_its_sentence_witness :
  In revenue_spec Compare.TABLE_KEYS /\
  Compare.valAt missingStore "revenue" fy2023 = None /\
  Compare.bullets (fun _ => "") en_US true (Compare.rows missingStore fy2022 fy2023)
  = Compare.narrativeIn (fun _ => "") en_US
      [ "gm"; "eps_diluted"; "operating_income"; "net_income";
        "assets"; "liabilities"; "equity" ]
      (Compare.rows missingStore fy2022 fy2023).
Proof.
  split; [now left|]. split; [reflexivity|].
  apply (missing_value_drops_only_its_sentence (fun _ => "") en_US missingStore
           fy2022 fy2023 revenue_spec).
  - now left.
  - right. reflexivity.
Defined.

Lemma chart_agrees_with_table_witness :
  In gm_spec ComparePage.METRICS /\
  ComparePage.chartData gmUpStore fy2022 fy2023 true "gm"
  = Some [ {| ComparePage.chart_name := fy2022; ComparePage.chart_value := Some 40 |};
           {| ComparePage.chart_name := fy2023; ComparePage.chart_value := Some 42.5 |} ].
Proof.
  split; [right; now left|].
  apply (chart_agrees_with_table gmUpStore fy2022 fy2023 true gm_spec).
  right. now left.
Defined.

Lemma summary_needs_resolved_filings_witness :
  In "Revenue increased 20.0% (+20), from 100 to 120."
     (Compare.summary (fun _ => "") en_US
        "0000320193-22-000108" "0000320193-23-000106"
        (Some [filing2023; filing2022]) revenueStore) /\
  exists fs fl fr,
    Some [filing2023; filing2022] = Some fs /\
    In fl fs /\ accession fl = "0000320193-22-000108" /\ periodEnd fl <> "" /\
    In fr fs /\ accession fr = "0000320193-23-000106" /\ periodEnd fr <> "" /\
    In "Revenue increased 20.0% (+20), from 100 to 120."
       (Compare.bullets (fun _ => "") en_US true
          (Compare.rows revenueStore (Some (periodEnd fl)) (Some (periodEnd fr)))).
Proof.
  assert (H : In "Revenue increased 20.0% (+20), from 100 to 120."
     (Compare.summary (fun _ => "") en_US
        "0000320193-22-000108" "0000320193-23-000106"
        (Some [filing2023; filing2022]) revenueStore)) by (now left).
  split; [exact H|].
  apply (summary_needs_resolved_filings (fun _ => "") en_US revenueStore
           "0000320193-22-000108" "0000320193-23-000106"
           (Some [filing2023; filing2022]) _ H).
Defined.

End MoreInstances.

Section Cells.

Import JS.

Variable Number_toString : number -> string.
Variable locale : Locale.

(** No text that ends with a percent sign is the dash. *)
Lemma percent_is_not_dash (s : string) : s ++ "%" <> "—".
Proof.
  destruct s as [|a [|b [|c s]]]; cbn; try discriminate.
  destruct s; discriminate.
Qed.

Lemma append_assoc3 (a b c : string) : a ++ b ++ c = (a ++ b) ++ c.
Proof. symmetry. apply append_assoc. Qed.

(** X21. The delta cells of a row of the table. The percent cell shows the
    dash exactly when the percent delta is undefined; the row is grey
    exactly when the absolute delta is undefined, and then both delta
    cells show the dash; a row that is green or red shows the dash in its
    percent cell exactly when its left operand is a zero. *)
Theorem delta_cells
    (metrics : option Metrics) (p1 p2 : option string) (k : Compare.MetricSpec) :
  let x := Compare.row metrics p1 p2 k in
  (ComparePage.cell_dpct Number_toString x = "—" <-> Compare.dpct x = None) /\
  (ComparePage.col x = "text-neutral-500" <-> Compare.d x = None) /\
  (ComparePage.col x = "text-neutral-500" ->
   ComparePage.cell_dpct Number_toString x = "—" /\ Compare.cell_d locale x = "—") /\
  (ComparePage.col x <> "text-neutral-500" ->
   (ComparePage.cell_dpct Number_toString x = "—" <->
    exists a, Compare.l x = Some a /\ (a =? 0)%float = true)).
Proof.
  cbv zeta. set (x := Compare.row metrics p1 p2 k).
  assert (Hp : ComparePage.cell_dpct Number_toString x = "—" <-> Compare.dpct x = None).
  { unfold ComparePage.cell_dpct. destruct (Compare.dpct x) as [p|].
    - split; [|discriminate]. rewrite append_assoc3. intros H.
      now apply percent_is_not_dash in H.
    - now split. }
  assert (Hc : ComparePage.col x = "text-neutral-500" <-> Compare.d x = None).
  { unfold ComparePage.col. destruct (Compare.d x) as [v|]; cbn [notNull negb].
    - destruct (Compare.ge0_or0 (Some v)); split; discriminate.
    - now split. }
  assert (Hi : notNull (Compare.dpct x)
               = notNull (Compare.d x)
                 && match Compare.l x with
                    | Some a => negb (a =? 0)%float
                    | None => false
                    end).
  { subst x. rewrite row_dpct, row_d. cbv zeta.
    destruct (Compare.l _) as [a|]; [|reflexivity].
    destruct (Compare.r _) as [b|]; [|reflexivity].
    cbn. now destruct (a =? 0)%float. }
  split; [exact Hp|]. split; [exact Hc|]. split.
  - intros Hd%Hc. split.
    + apply Hp. rewrite Hd in Hi.
      destruct (Compare.dpct x); [cbn in Hi; discriminate Hi | reflexivity].
    + unfold Compare.cell_d. now rewrite Hd.
  - intros Hn. rewrite Hp.
    destruct (Compare.d x) as [v|] eqn:Ed; [|elim Hn; now apply Hc].
    split.
    + intros E. rewrite E in Hi.
      destruct (Compare.l x) as [a|] eqn:El.
      * exists a. split; [reflexivity|].
        destruct (a =? 0)%float; [reflexivity | cbn in Hi; discriminate Hi].
      * subst x. rewrite row_d in Ed. cbv zeta in Ed. rewrite El in Ed.
        discriminate Ed.
    + intros [a [El Z]]. rewrite El, Z in Hi.
      destruct (Compare.dpct x); [cbn in Hi; discriminate Hi | reflexivity].
Qed.

End Cells.

Section Flow.

Import JS Text.

(** X22. From two choices to the comparison. After an accession is chosen
    for slot A and another for slot B, neither being empty, the Compare
    button is enabled, and the page it opens compares the first accession,
    on the left, with the second, on the right. *)
Theorem choose_then_compare
    (symbol x y : string) (sp : URLSearchParams) :
  x <> "" -> y <> "" ->
  let chosen := TickerPage.setSlot (TickerPage.setSlot sp "a" (Some x)) "b" (Some y) in
  let params := parseSearch (searchOf (TickerPage.comparePath symbol chosen)) in
  TickerPage.compareEnabled chosen = true /\
  ComparePage.symbolOf params = symbol /\
  ComparePage.leftAccOf params = x /\
  ComparePage.rightAccOf params = y.
Proof.
  intros Hx Hy chosen params.
  assert (A : TickerPage.slotA chosen = x).
  { unfold TickerPage.slotA. subst chosen.
    rewrite slotOf_setSlot_other by discriminate.
    now apply slotOf_setSlot_same. }
  assert (B : TickerPage.slotB chosen = y).
  { unfold TickerPage.slotB. subst chosen. now apply slotOf_setSlot_same. }
  subst params. rewrite comparePath_parsed, A, B.
  split.
  - unfold TickerPage.compareEnabled, truthy_string. rewrite A, B.
    destruct (String.eqb_spec x "") as [|_]; [contradiction|].
    destruct (String.eqb_spec y "") as [|_]; [contradiction|]. reflexivity.
  - repeat split.
Qed.

Lemma choose_then_compare_witness :
  "0000320193-22-000108" <> "" /\ "0000320193-23-000106" <> "" /\
  TickerPage.comparePath "AAPL"
    (TickerPage.setSlot (TickerPage.setSlot [] "a" (Some "0000320193-22-000108"))
                        "b" (Some "0000320193-23-000106"))
    = "/compare?symbol=AAPL&left=0000320193-22-000108&right=0000320193-23-000106" /\
  ComparePage.leftAccOf
    (parseSearch (searchOf (TickerPage.comparePath "AAPL"
       (TickerPage.setSlot (TickerPage.setSlot [] "a" (Some "0000320193-22-000108"))
                           "b" (Some "0000320193-23-000106")))))
    = "0000320193-22-000108".
Proof.
  split; [discriminate|]. split; [discriminate|]. split; [reflexivity|].
  apply (choose_then_compare "AAPL" "0000320193-22-000108" "0000320193-23-000106" []);
    discriminate.
Defined.

End Flow.
